(** * Sales forecast lookup engine: [predict_sales], [get_sample_items]
      and the option list of [main] (src/app.py)

    The prediction table is a pandas DataFrame with the columns
    [item_id], [shop_id] (int64) and [item_cnt_month] (float64).  A
    DataFrame is modelled as the list of its rows in row order.  The
    integer columns are [Z].  In this first model quantities are exact
    rationals [Q] and equality of quantities is [Qeq]: it carries the
    properties of selecting, counting, ordering and slicing, which do
    not depend on how float64 rounds.  The properties that do depend on
    it (the sum, the average) are stated over the numeric interface
    further down, with a binary64 instance [F64]. *)

From Stdlib Require Import ZArith QArith List Sorted Permutation Lia Bool Arith.
From Stdlib Require Import Qround Lqa.
From Stdlib Require String Ascii DecimalString DecimalZ.
From Stdlib Require Import Qabs.
From Stdlib Require Floats Uint63.
Import ListNotations.

Local Open Scope Z_scope.

(** ** Stable insertion sort

    [sorted], [DataFrame.sort_values] and [DataFrame.nlargest] are library
    calls.  They are modelled by one stable sort, parameterised by the
    test [leb x y] ("[x] may stand before [y]"): an element is inserted
    in front of the first element it may stand before, so elements that
    tie keep the order they had in the input. *)

Section StableSortDef.
Context {A : Type}.
Variable leb : A -> A -> bool.

Fixpoint insert_sorted (x : A) (l : list A) : list A :=
  match l with
  | [] => [x]
  | y :: l' => if leb x y then x :: l else y :: insert_sorted x l'
  end.

Definition stable_sort (l : list A) : list A :=
  fold_right insert_sorted [] l.

Definition before (x y : A) : Prop := leb x y = true.
End StableSortDef.

(** ** Data model *)

(** One row of result.csv. *)
Record PredictionRow : Type := mkRow {
  item_id : Z;
  shop_id : Z;
  item_cnt_month : Q
}.

Definition DataFrame : Type := list PredictionRow.

(** [len(df)] *)
Definition len {A : Type} (l : list A) : nat := length l.

(** [df[df['item_id'] == item]]: the rows of the item, in row order. *)
Definition select_item (df : DataFrame) (item : Z) : DataFrame :=
  filter (fun r => item_id r =? item) df.

(** [Series.sum()] in exact arithmetic: the column added up in row
    order, starting from 0 ([F64.series_sum] is the float64 sum). *)
Definition series_sum (col : list Q) : Q := fold_left Qplus col 0%Q.

(** ** Slicing: [head], [tail] and [iloc[start:stop]]

    pandas clamps all three to the bounds of the frame; none of them
    raises on a short frame. *)
Definition head {A : Type} (n : nat) (l : list A) : list A := firstn n l.

Definition tail {A : Type} (n : nat) (l : list A) : list A :=
  skipn (length l - n) l.

Definition iloc {A : Type} (start stop : nat) (l : list A) : list A :=
  firstn (stop - start) (skipn start l).

(** ** [groupby('item_id')['item_cnt_month'].sum().reset_index()]

    One row [(item_id, total)] per distinct item, the keys ascending
    (groupby sorts its keys), each total added up in row order.  The
    groups are built by one pass over the table. *)
Fixpoint group_add (k : Z) (v : Q) (g : list (Z * Q)) : list (Z * Q) :=
  match g with
  | [] => [(k, v)]
  | (k', t) :: g' =>
      if k <? k' then (k, v) :: g
      else if k =? k' then (k', (t + v)%Q) :: g'
      else (k', t) :: group_add k v g'
  end.

Definition groupby_sum (df : DataFrame) : list (Z * Q) :=
  fold_left (fun g r => group_add (item_id r) (item_cnt_month r) g) df [].

(** ** Sorting *)

(** Descending by a rational key: [x] may stand before [y] when
    [key y <= key x]. *)
Definition desc_by {A : Type} (key : A -> Q) (x y : A) : bool :=
  Qle_bool (key y) (key x).

(** The order that a descending sort establishes, as a proposition. *)
Definition ge_key {A : Type} (key : A -> Q) (x y : A) : Prop :=
  (key y <= key x)%Q.


(** [sort_values('item_cnt_month', ascending=False)] on the grouped
    totals.  pandas' default sort kind leaves the order of equal totals
    to the algorithm; the model keeps them in their input order, and the
    theorems below on [get_sample_items] use only that the result is a
    descending permutation. *)
Definition sort_values_desc (g : list (Z * Q)) : list (Z * Q) :=
  stable_sort (desc_by snd) g.

(** [DataFrame.nlargest(n, 'item_cnt_month')] with the default
    [keep='first']: the first [n] rows in descending order of the column,
    rows of equal value in their order of occurrence. *)
Definition nlargest (n : nat) (df : DataFrame) : DataFrame :=
  firstn n (stable_sort (desc_by item_cnt_month) df).

(** [sorted(xs)] on integers. *)
Definition sorted (l : list Z) : list Z := stable_sort Z.leb l.

(** [Series.unique()]: the distinct values in order of first occurrence. *)
Fixpoint unique (l : list Z) : list Z :=
  match l with
  | [] => []
  | x :: l' => x :: filter (fun y => negb (y =? x)) (unique l')
  end.

(** ** [get_sample_items] (app.py, lines 33-44) *)

Definition get_sample_items (df : DataFrame) (n : Z) : list Z :=
  let item_totals := groupby_sum df in
  let item_totals := sort_values_desc item_totals in
  let top_items := map fst (head 3 item_totals) in
  let mid_items :=
    map fst (iloc (len item_totals / 2)%nat (len item_totals / 2 + 4)%nat item_totals) in
  let low_items := map fst (tail 3 item_totals) in
  top_items ++ mid_items ++ low_items.

(** The three groups, named as in the source. *)
Definition top_items (df : DataFrame) : list Z :=
  map fst (head 3 (sort_values_desc (groupby_sum df))).

Definition mid_items (df : DataFrame) : list Z :=
  let item_totals := sort_values_desc (groupby_sum df) in
  map fst (iloc (len item_totals / 2)%nat (len item_totals / 2 + 4)%nat item_totals).

Definition low_items (df : DataFrame) : list Z :=
  map fst (tail 3 (sort_values_desc (groupby_sum df))).

(** ** [predict_sales] (app.py, lines 46-76) *)

(** The dict that [predict_sales] returns; [top_shops] holds the columns
    [shop_id] and [item_cnt_month] of the selected rows. *)
Record PredictionSummary : Type := mkSummary {
  total_sales : Q;
  n_shops : nat;
  avg_per_shop : Q;
  top_shops : list (Z * Q)
}.

(** [total_sales / n_shops if n_shops > 0 else 0], the division exact
    ([F64.true_divide] is the float64 division). *)
Definition guarded_avg (total : Q) (n : nat) : Q :=
  if (0 <? n)%nat then (total / inject_Z (Z.of_nat n))%Q else 0%Q.

Definition shop_columns (r : PredictionRow) : Z * Q :=
  (shop_id r, item_cnt_month r).

(** [None] is the source's "not found" result. *)
Definition predict_sales (df : DataFrame) (item : Z) : option PredictionSummary :=
  let item_predictions := select_item df item in
  if (len item_predictions =? 0)%nat then None
  else
    let total := series_sum (map item_cnt_month item_predictions) in
    let n := len item_predictions in
    let avg := guarded_avg total n in
    let top := map shop_columns (nlargest 5 item_predictions) in
    Some (mkSummary total n avg top).

(** ** The option list of [main] (app.py, lines 117-121) *)

Definition options (df : DataFrame) : list Z :=
  let sample_items := get_sample_items df 10 in
  let all_items := sorted (unique (map item_id df)) in
  [0] ++ sample_items
      ++ filter (fun item => negb (existsb (Z.eqb item) sample_items)) all_items.

(** ** The specification's reading of the results *)

(** Number of rows of the table whose item is [item]. *)
Definition matching_rows (df : DataFrame) (item : Z) : nat :=
  count_occ Z.eq_dec (map item_id df) item.

(** Sum of [item_cnt_month] over the rows of the table whose item is
    [item], by recursion on the table. *)
Fixpoint matching_sum (df : DataFrame) (item : Z) : Q :=
  match df with
  | [] => 0%Q
  | r :: df' =>
      if Z.eq_dec (item_id r) item
      then (item_cnt_month r + matching_sum df' item)%Q
      else matching_sum df' item
  end.

(** The selection list as the specification words it: the sentinel, then
    the deduplicated union of the sample and the items of the table in
    ascending order. *)
Definition options_spec (df : DataFrame) : list Z :=
  0 :: sorted (unique (get_sample_items df 10 ++ map item_id df)).

(** ** Example tables *)

(** The table of the specification's first example. *)
Definition table3 : DataFrame :=
  [ mkRow 1 10 5; mkRow 1 11 3; mkRow 2 10 1 ]%Q.

(** Items 1..20, one row each, item [i] with total [i]. *)
Definition table20 : DataFrame :=
  map (fun i => mkRow (Z.of_nat i) 0 (inject_Z (Z.of_nat i))) (seq 1 20).

(** Two items, one row each. *)
Definition table2 : DataFrame := [ mkRow 1 10 1; mkRow 2 10 5 ]%Q.

(** ** The rest of [main] (app.py, lines 79-229)

    The widgets and the page layout are left out; what [main] computes
    for them is modelled below. *)

(** *** Sidebar and quick stats (lines 106-108 and 138-140) *)

(** [Series.nunique()] *)
Definition nunique (col : list Z) : nat := len (unique col).

Record QuickStats : Type := mkStats {
  available_items : nat;      (* df['item_id'].nunique() *)
  total_predictions : nat;    (* len(df) *)
  shops_covered : nat         (* df['shop_id'].nunique() *)
}.

Definition quick_stats (df : DataFrame) : QuickStats :=
  mkStats (nunique (map item_id df)) (len df) (nunique (map shop_id df)).

(** The "Number of Shops" metric of an item, 0 where [predict_sales]
    finds nothing. *)
Definition shops_metric (df : DataFrame) (item : Z) : nat :=
  match predict_sales df item with
  | Some result => n_shops result
  | None => 0%nat
  end.

(** *** What a click displays (lines 143-221) *)

Inductive Response : Type :=
| NoResponse                                       (* neither branch runs *)
| NotFoundError (item : Z)                         (* st.error *)
| Prediction (item : Z) (result : PredictionSummary) (* st.success *)
| SelectWarning.                                   (* st.warning *)

Definition respond (df : DataFrame) (predict_button : bool) (item_id_input : Z)
  : Response :=
  if predict_button && negb (item_id_input =? 0) then
    match predict_sales df item_id_input with
    | None => NotFoundError item_id_input
    | Some result => Prediction item_id_input result
    end
  else if predict_button && (item_id_input =? 0) then SelectWarning
  else NoResponse.

(** *** Item information (lines 24-31 and 180-185) *)

(** One row of data/items.csv. *)
Record ItemRow : Type := mkItemRow {
  info_item_id : Z;
  item_category_id : Z
}.

(** What [pd.read_csv] did: it returned a frame or it raised. *)
Inductive ReadOutcome : Type :=
| ReadFrame (items_df : list ItemRow)
| ReadRaised.

(** [load_item_info]: the bare [except] turns every failure into [None]. *)
Definition load_item_info (read_csv : ReadOutcome) : option (list ItemRow) :=
  match read_csv with
  | ReadFrame items_df => Some items_df
  | ReadRaised => None
  end.

(** The category line of the result page: not shown, shown with a
    category, or an [IndexError] out of [iloc[0]]. *)
Inductive CategoryLine : Type :=
| NoCategory
| Category (item_category : Z)
| CategoryIndexError.

Definition category_line (items_info : option (list ItemRow)) (item_id_input : Z)
  : CategoryLine :=
  match items_info with
  | None => NoCategory
  | Some items_df =>
      let item_detail :=
        filter (fun r => info_item_id r =? item_id_input) items_df in
      if (0 <? len item_detail)%nat then
        match nth_error (map item_category_id item_detail) 0 with
        | Some c => Category c
        | None => CategoryIndexError
        end
      else NoCategory
  end.

(** *** The displayed tables (lines 191-194 and 213-217) *)

(** [numpy.rint]: the nearest integer, halves to the even neighbour. *)
Definition rint (q : Q) : Z :=
  let f := Qfloor q in
  match (q - inject_Z f ?= 1 # 2)%Q with
  | Lt => f
  | Gt => f + 1
  | Eq => if Z.even f then f else f + 1
  end.

(** [Series.round(2)]: scale by 100, [rint], scale back. *)
Definition round2 (q : Q) : Q := (inject_Z (rint (q * 100)) / 100)%Q.

Definition round_sales (row : Z * Q) : Z * Q := (fst row, round2 (snd row)).

(** [frame.index = range(1, len(frame) + 1)] *)
Definition reindex_from_1 {A : Type} (rows : list A) : list (nat * A) :=
  combine (seq 1 (len rows)) rows.

(** The "Top 5 Shops" table: rank, shop, rounded sales. *)
Definition top_shops_display (result : PredictionSummary) : list (nat * (Z * Q)) :=
  reindex_from_1 (map round_sales (top_shops result)).

(** The "View All Shops" table: every row of the item, rounded, then
    sorted descending by the rounded sales. *)
Definition all_shops (df : DataFrame) (item_id_input : Z) : list (nat * (Z * Q)) :=
  let all_shops := map shop_columns (select_item df item_id_input) in
  let all_shops := map round_sales all_shops in
  let all_shops := sort_values_desc all_shops in
  reindex_from_1 all_shops.

(** The "Predicted Sales" column of a displayed table. *)
Definition sales_column (table : list (nat * (Z * Q))) : list Q :=
  map (fun row => snd (snd row)) table.

(** A column in non-increasing order. *)
Definition descending (col : list Q) : Prop :=
  StronglySorted (ge_key (fun q => q)) col.

(** *** The labels of the select box (line 127) *)

Module Labels.
Import String.

(** [f"{x}"] for an integer: its decimal digits, with a minus sign. *)
Definition decimal (x : Z) : string :=
  DecimalString.NilZero.string_of_int (Z.to_int x).

Definition format_func (x : Z) : string :=
  if x =? 0 then "-- Select an Item ID --"%string
  else ("Item ID: " ++ decimal x)%string.

End Labels.

(** ** More example tables *)

(** Items 1..12, one row each, item [i] with total [i]. *)
Definition table12 : DataFrame :=
  map (fun i => mkRow (Z.of_nat i) 0 (inject_Z (Z.of_nat i))) (seq 1 12).

(** Items 1..10, one row each, item [i] with total [i]. *)
Definition table10 : DataFrame :=
  map (fun i => mkRow (Z.of_nat i) 0 (inject_Z (Z.of_nat i))) (seq 1 10).

(** One item in two rows of the same shop. *)
Definition table_repeated_shop : DataFrame := [ mkRow 1 10 5; mkRow 1 10 3 ]%Q.

Definition items3 : list ItemRow :=
  [ mkItemRow 1 40; mkItemRow 2 55; mkItemRow 1 77 ].

(** ** The numeric library calls as an interface

    Everything above computes with exact rationals, which is what the
    properties of counting and ordering need.  What the program adds,
    divides and sorts is float64, inside pandas and numpy.  For the
    properties that depend on that arithmetic the two functions are
    modelled once more over an arbitrary type [F] of quantities, with
    the library calls as parameters: a theorem proved for every value of
    the parameters holds for the float64 calls of the program, and the
    instance [F64] below computes with binary64 itself. *)

Record RowOf (F : Type) : Type := mkRowOf {
  item_id_of : Z;
  shop_id_of : Z;
  item_cnt_month_of : F
}.

Arguments mkRowOf {F} _ _ _.
Arguments item_id_of {F} _.
Arguments shop_id_of {F} _.
Arguments item_cnt_month_of {F} _.

Record SummaryOf (F : Type) : Type := mkSummaryOf {
  total_sales_of : F;
  n_shops_of : nat;
  avg_per_shop_of : F;
  top_shops_of : list (Z * F)
}.

Arguments mkSummaryOf {F} _ _ _ _.
Arguments total_sales_of {F} _.
Arguments n_shops_of {F} _.
Arguments avg_per_shop_of {F} _.
Arguments top_shops_of {F} _.

(** The calls that [predict_sales] makes on quantities. *)
Record Numerics (F : Type) : Type := mkNumerics {
  series_sum_of : list F -> F;            (* Series.sum() *)
  true_divide : F -> nat -> F;            (* total_sales / n_shops *)
  int_zero : F;                           (* the 0 of the else branch *)
  nlargest_of : nat -> list (RowOf F) -> list (RowOf F)
                                          (* nlargest(n, 'item_cnt_month') *)
}.

Arguments mkNumerics {F} _ _ _ _.
Arguments series_sum_of {F} _ _.
Arguments true_divide {F} _ _ _.
Arguments int_zero {F} _.
Arguments nlargest_of {F} _ _ _.

Definition select_item_of {F : Type} (df : list (RowOf F)) (item : Z)
  : list (RowOf F) :=
  filter (fun r => item_id_of r =? item) df.

Definition shop_columns_of {F : Type} (r : RowOf F) : Z * F :=
  (shop_id_of r, item_cnt_month_of r).

(** [predict_sales] (app.py, lines 46-76) over the interface. *)
Definition predict_sales_with {F : Type} (np : Numerics F)
    (df : list (RowOf F)) (item_id : Z) : option (SummaryOf F) :=
  let item_predictions := select_item_of df item_id in
  if (len item_predictions =? 0)%nat then None
  else
    let total_sales := series_sum_of np (map item_cnt_month_of item_predictions) in
    let n_shops := len item_predictions in
    let avg_per_shop :=
      if (0 <? n_shops)%nat then true_divide np total_sales n_shops
      else int_zero np in
    let top_shops := map shop_columns_of (nlargest_of np 5 item_predictions) in
    Some (mkSummaryOf total_sales n_shops avg_per_shop top_shops).

(** The quantities of one item, in row order. *)
Definition column_of {F : Type} (df : list (RowOf F)) (item : Z) : list F :=
  map item_cnt_month_of (select_item_of df item).

(** [groupby('item_id')['item_cnt_month'].sum().reset_index()]: one row
    per distinct item, the keys ascending, each with the group sum of
    the item's quantities taken in row order. *)
Definition groupby_with {F : Type} (group_sum : list F -> F)
    (df : list (RowOf F)) : list (Z * F) :=
  map (fun k => (k, group_sum (column_of df k)))
      (sorted (unique (map item_id_of df))).

(** [get_sample_items] (app.py, lines 33-44) with the group sum and
    [sort_values('item_cnt_month', ascending=False)] as parameters. *)
Definition get_sample_items_with {F : Type} (group_sum : list F -> F)
    (sort_values : list (Z * F) -> list (Z * F))
    (df : list (RowOf F)) (n : Z) : list Z :=
  let item_totals := groupby_with group_sum df in
  let item_totals := sort_values item_totals in
  let top_items := map fst (head 3 item_totals) in
  let mid_items :=
    map fst (iloc (len item_totals / 2)%nat (len item_totals / 2 + 4)%nat
                  item_totals) in
  let low_items := map fst (tail 3 item_totals) in
  top_items ++ mid_items ++ low_items.

(** *** The specification's reading, over the interface *)

Definition matching_rows_of {F : Type} (df : list (RowOf F)) (item : Z) : nat :=
  count_occ Z.eq_dec (map item_id_of df) item.

(** The quantities of the rows whose item is [item], by recursion on the
    table. *)
Fixpoint matching_column {F : Type} (df : list (RowOf F)) (item : Z) : list F :=
  match df with
  | [] => []
  | r :: df' =>
      if Z.eq_dec (item_id_of r) item
      then item_cnt_month_of r :: matching_column df' item
      else matching_column df' item
  end.

(** The exact sum of a column, each entry read as the rational it
    denotes. *)
Definition exact_sum {F : Type} (value : F -> Q) (col : list F) : Q :=
  fold_right (fun x acc => (value x + acc)%Q) 0%Q col.

(** The unit roundoff of binary64, and the tolerance of the
    specification. *)
Definition unit_roundoff : Q := 1 # 9007199254740992.

Definition tolerance : Q := 1 # 1000000.

(** Items 1..20 over the interface, one row each, item [i] with the
    quantity [i]. *)
Definition ranked20 : list (RowOf Q) :=
  map (fun i => mkRowOf (Z.of_nat i) 0 (inject_Z (Z.of_nat i))) (seq 1 20).

(** *** The float64 instance *)

Module F64.
Import Floats.

(** The rational that a finite float denotes (0 for NaN and the
    infinities, which denote none). *)
Definition value (x : float) : Q :=
  match Prim2SF x with
  | S754_finite s m e =>
      let magnitude :=
        if 0 <=? e then inject_Z (Zpos m * 2 ^ e)
        else Qmake (Zpos m) (Z.to_pos (2 ^ (- e))) in
      if s then (- magnitude)%Q else magnitude
  | _ => 0%Q
  end.

(** [nansum] fills the missing values with 0 before it adds. *)
Definition fill_nan (x : float) : float := if is_nan x then 0%float else x.

(** numpy's [DOUBLE_pairwise_sum]: a plain loop below 8 entries; up to
    128 entries, 8 running sums over the entries taken 8 at a time,
    added up as a tree, the remaining entries added one by one; above
    128, the two halves summed separately, the first half cut to a
    multiple of 8. *)
Fixpoint sum_loop (res : float) (a : list float) : float :=
  match a with
  | [] => res
  | x :: a' => sum_loop (res + x)%float a'
  end.

Fixpoint accumulate8 (r0 r1 r2 r3 r4 r5 r6 r7 : float) (a : list float)
  : float :=
  match a with
  | a0 :: a1 :: a2 :: a3 :: a4 :: a5 :: a6 :: a7 :: rest =>
      accumulate8 (r0 + a0) (r1 + a1) (r2 + a2) (r3 + a3)
                  (r4 + a4) (r5 + a5) (r6 + a6) (r7 + a7) rest
  | leftover =>
      sum_loop (((r0 + r1) + (r2 + r3)) + ((r4 + r5) + (r6 + r7)))%float
               leftover
  end.

Definition block_sum (a : list float) : float :=
  match a with
  | a0 :: a1 :: a2 :: a3 :: a4 :: a5 :: a6 :: a7 :: rest =>
      accumulate8 a0 a1 a2 a3 a4 a5 a6 a7 rest
  | _ => sum_loop (-0)%float a
  end.

(** [fuel] bounds the depth of the halving; the length of the column is
    always enough. *)
Fixpoint pairwise_sum (fuel : nat) (a : list float) : float :=
  let n := length a in
  if (n <=? 128)%nat then block_sum a
  else
    match fuel with
    | O => block_sum a
    | S fuel' =>
        let n2 := (n / 2 - (n / 2) mod 8)%nat in
        (pairwise_sum fuel' (firstn n2 a) + pairwise_sum fuel' (skipn n2 a))%float
    end.

(** [Series.sum()] on a float64 column. *)
Definition series_sum (values : list float) : float :=
  let values := map fill_nan values in
  pairwise_sum (length values) values.

(** [total_sales / n_shops]: the count converted to float64, then one
    IEEE division. *)
Definition true_divide (x : float) (n : nat) : float :=
  (x / of_uint63 (Uint63.of_Z (Z.of_nat n)))%float.

(** [nlargest(n, 'item_cnt_month')], [keep='first']: the rows with a
    value in descending order, equal values in row order, then the rows
    without a value; the first [n] of these. *)
Definition nlargest (n : nat) (rows : list (RowOf float)) : list (RowOf float) :=
  let dropped := filter (fun r => negb (is_nan (item_cnt_month_of r))) rows in
  let nan_rows := filter (fun r => is_nan (item_cnt_month_of r)) rows in
  firstn n
    (stable_sort
       (fun x y => (item_cnt_month_of y <=? item_cnt_month_of x)%float) dropped
     ++ nan_rows).

(** [avg_per_shop * n_shops] when float64 computes it. *)
Definition multiply (x : float) (n : nat) : float :=
  (x * of_uint63 (Uint63.of_Z (Z.of_nat n)))%float.

Definition numerics : Numerics float :=
  mkNumerics series_sum true_divide 0%float nlargest.

Definition predict_sales (df : list (RowOf float)) (item_id : Z)
  : option (SummaryOf float) :=
  predict_sales_with numerics df item_id.

(** The first example of the specification. *)
Definition table3 : list (RowOf float) :=
  [ mkRowOf 1 10 5%float; mkRowOf 1 11 3%float; mkRowOf 2 10 1%float ].

(** Item 1 in three shops: 1e16, 1.0 and 1.0. *)
Definition table_large : list (RowOf float) :=
  [ mkRowOf 1 10 1e16%float; mkRowOf 1 11 1%float; mkRowOf 1 12 1%float ].

(** Item 1 in 49 shops: 1.0 in the first, 0.0 in the others. *)
Definition table49 : list (RowOf float) :=
  mkRowOf 1 1 1%float
  :: map (fun i => mkRowOf 1 (Z.of_nat i) 0%float) (seq 2 48).

(** Item 1 in three shops: the smallest positive float64, 0.0 and 0.0. *)
Definition table_tiny : list (RowOf float) :=
  [ mkRowOf 1 10 0x1p-1074%float; mkRowOf 1 11 0%float; mkRowOf 1 12 0%float ].

End F64.

(** ** Properties of the stable sort *)

Section StableSort.
Context {A : Type}.
Variable leb : A -> A -> bool.

Lemma insert_sorted_perm x l : Permutation (x :: l) (insert_sorted leb x l).
Proof.
  induction l as [|y l IH]; simpl.
  - apply Permutation_refl.
  - destruct (leb x y).
    + apply Permutation_refl.
    + eapply Permutation_trans; [apply perm_swap|].
      apply perm_skip, IH.
Qed.

Lemma stable_sort_perm l : Permutation l (stable_sort leb l).
Proof.
  induction l as [|x l IH]; simpl.
  - constructor.
  - eapply Permutation_trans; [apply perm_skip, IH|].
    apply insert_sorted_perm.
Qed.

Lemma stable_sort_length l : length (stable_sort leb l) = length l.
Proof. symmetry. apply Permutation_length, stable_sort_perm. Qed.

Lemma stable_sort_In x l : In x (stable_sort leb l) <-> In x l.
Proof.
  split; intro H.
  - eapply Permutation_in; [apply Permutation_sym, stable_sort_perm|exact H].
  - eapply Permutation_in; [apply stable_sort_perm|exact H].
Qed.

(** Sortedness needs [leb] to be total and transitive. *)
Hypothesis leb_total : forall x y, leb x y = true \/ leb y x = true.
Hypothesis leb_trans :
  forall x y z, leb x y = true -> leb y z = true -> leb x z = true.

Lemma insert_sorted_sorted x l :
  StronglySorted (before leb) l -> StronglySorted (before leb) (insert_sorted leb x l).
Proof.
  induction 1 as [|y l Hs IH Hy]; simpl.
  - repeat constructor.
  - destruct (leb x y) eqn:E.
    + constructor; [constructor; assumption|].
      constructor; [exact E|].
      eapply Forall_impl; [|exact Hy].
      intros z Hz. eapply leb_trans; [exact E|exact Hz].
    + constructor; [exact IH|].
      assert (Hyx : before leb y x).
      { destruct (leb_total x y) as [H|H]; [congruence|exact H]. }
      eapply Permutation_Forall; [apply insert_sorted_perm|].
      constructor; assumption.
Qed.

Lemma stable_sort_sorted l : StronglySorted (before leb) (stable_sort leb l).
Proof.
  induction l as [|x l IH]; simpl.
  - constructor.
  - apply insert_sorted_sorted, IH.
Qed.
End StableSort.

(** Stability: a class of elements [p] that tie with one another (any two
    of them may stand in either order, here only [leb x y] is needed)
    comes out of the sort in its input order. *)
Section Stability.
Context {A : Type}.
Variable leb : A -> A -> bool.
Variable p : A -> bool.
Hypothesis p_ties : forall x y, p x = true -> p y = true -> leb x y = true.


End Stability.

(** ** General list facts *)

Lemma StronglySorted_weaken {A : Type} (R R' : A -> A -> Prop) (l : list A) :
  (forall a b, R a b -> R' a b) -> StronglySorted R l -> StronglySorted R' l.
Proof.
  intros HR. induction 1 as [|a l Hs IH Ha]; constructor.
  - exact IH.
  - eapply Forall_impl; [|exact Ha]. intros b. apply HR.
Qed.

Lemma StronglySorted_app_inv {A : Type} (R : A -> A -> Prop) (l1 l2 : list A) :
  StronglySorted R (l1 ++ l2) ->
  StronglySorted R l1 /\ StronglySorted R l2 /\
  (forall a b, In a l1 -> In b l2 -> R a b).
Proof.
  induction l1 as [|x l1 IH]; simpl; intros H.
  - repeat split; [constructor|exact H|contradiction].
  - inversion H as [|? ? Hs Hx]; subst.
    destruct (IH Hs) as (S1 & S2 & Hc).
    rewrite Forall_app in Hx. destruct Hx as [Hx1 Hx2].
    repeat split.
    + constructor; assumption.
    + exact S2.
    + intros a b [<-|Ha] Hb.
      * rewrite Forall_forall in Hx2. apply Hx2, Hb.
      * apply Hc; assumption.
Qed.

Lemma StronglySorted_firstn {A : Type} (R : A -> A -> Prop) (n : nat) (l : list A) :
  StronglySorted R l -> StronglySorted R (firstn n l).
Proof.
  intros H. rewrite <- (firstn_skipn n l) in H.
  apply StronglySorted_app_inv in H. tauto.
Qed.




(** ** Descending order on rational keys *)

Lemma desc_by_total {A : Type} (key : A -> Q) (x y : A) :
  desc_by key x y = true \/ desc_by key y x = true.
Proof.
  unfold desc_by. rewrite !Qle_bool_iff.
  destruct (Qlt_le_dec (key x) (key y)) as [H|H].
  - right. apply Qlt_le_weak, H.
  - left. exact H.
Qed.

Lemma desc_by_trans {A : Type} (key : A -> Q) (x y z : A) :
  desc_by key x y = true -> desc_by key y z = true -> desc_by key x z = true.
Proof.
  unfold desc_by. rewrite !Qle_bool_iff. intros H1 H2.
  eapply Qle_trans; eassumption.
Qed.

Lemma stable_sort_desc_sorted {A : Type} (key : A -> Q) (l : list A) :
  StronglySorted (ge_key key) (stable_sort (desc_by key) l).
Proof.
  eapply StronglySorted_weaken;
    [|apply stable_sort_sorted; [apply desc_by_total|apply desc_by_trans]].
  intros a b. unfold before, desc_by, ge_key. apply Qle_bool_iff.
Qed.


(** ** Selection, count and sum *)

Lemma select_item_length (df : DataFrame) (item : Z) :
  length (select_item df item) = matching_rows df item.
Proof.
  unfold select_item, matching_rows.
  induction df as [|r df IH]; simpl.
  - reflexivity.
  - destruct (Z.eq_dec (item_id r) item) as [E|E].
    + apply Z.eqb_eq in E. rewrite E. simpl. now rewrite IH.
    + apply Z.eqb_neq in E. rewrite E. exact IH.
Qed.

Lemma matching_rows_pos (df : DataFrame) (item : Z) :
  In item (map item_id df) <-> (0 < matching_rows df item)%nat.
Proof. unfold matching_rows. apply count_occ_In. Qed.

Lemma fold_left_Qplus (l : list Q) (a : Q) :
  (fold_left Qplus l a == a + fold_left Qplus l 0)%Q.
Proof.
  revert a. induction l as [|x l IH]; intros a; simpl.
  - ring.
  - rewrite (IH (a + x)%Q), (IH (0 + x)%Q). ring.
Qed.

Lemma series_sum_cons (x : Q) (l : list Q) :
  (series_sum (x :: l) == x + series_sum l)%Q.
Proof.
  unfold series_sum. simpl. rewrite fold_left_Qplus. ring.
Qed.

Lemma select_item_sum (df : DataFrame) (item : Z) :
  (series_sum (map item_cnt_month (select_item df item)) == matching_sum df item)%Q.
Proof.
  unfold select_item.
  induction df as [|r df IH]; simpl.
  - reflexivity.
  - destruct (Z.eq_dec (item_id r) item) as [E|E].
    + apply Z.eqb_eq in E. rewrite E. simpl.
      rewrite series_sum_cons, IH. reflexivity.
    + apply Z.eqb_neq in E. rewrite E. exact IH.
Qed.

(** What [predict_sales] returns, by the emptiness of the selection. *)
Lemma predict_sales_cases (df : DataFrame) (item : Z) :
  (matching_rows df item = 0%nat /\ predict_sales df item = None) \/
  ((0 < matching_rows df item)%nat /\
   predict_sales df item =
   Some (mkSummary
           (series_sum (map item_cnt_month (select_item df item)))
           (len (select_item df item))
           (guarded_avg (series_sum (map item_cnt_month (select_item df item)))
                        (len (select_item df item)))
           (map shop_columns (nlargest 5 (select_item df item))))).
Proof.
  unfold predict_sales, len. rewrite select_item_length.
  destruct (matching_rows df item) as [|k] eqn:E; simpl.
  - left. split; reflexivity.
  - right. split; [lia|reflexivity].
Qed.

(** ** The examples of the specification *)

Example predict_sales_table3_item1 :
  predict_sales table3 1 =
  Some (mkSummary 8 2 (8 # 2) [(10, 5%Q); (11, 3%Q)]).
Proof. reflexivity. Qed.

Example predict_sales_table3_average :
  (guarded_avg 8 2 == 4)%Q.
Proof. reflexivity. Qed.

Example predict_sales_table3_item99 : predict_sales table3 99 = None.
Proof. reflexivity. Qed.

(** Shops of equal quantity keep their order in the table. *)
Example nlargest_ties :
  map shop_columns
      (nlargest 3 [mkRow 7 1 3; mkRow 7 2 5; mkRow 7 3 3; mkRow 7 4 5]%Q) =
  [(2, 5%Q); (4, 5%Q); (1, 3%Q)].
Proof. reflexivity. Qed.

Example get_sample_items_table20 :
  get_sample_items table20 10 = [20; 19; 18; 10; 9; 8; 7; 3; 2; 1].
Proof. vm_compute. reflexivity. Qed.

(** A single item is sampled three times, once by each slice. *)
Example get_sample_items_one_item :
  get_sample_items [mkRow 4 1 2%Q] 10 = [4; 4; 4].
Proof. reflexivity. Qed.

(** ** [predict_sales]: count, sum and the not-found case *)

(** C2: [predict_sales] returns [None] (not found) exactly when no row
    of the table has the item: an item that matches no row is not found,
    and nothing else makes the lookup fail. *)
Theorem predict_sales_not_found (df : DataFrame) (item : Z) :
  predict_sales df item = None <-> ~ In item (map item_id df).
Proof.
  rewrite matching_rows_pos.
  destruct (predict_sales_cases df item) as [[H0 Hn]|[Hpos Hs]].
  - rewrite Hn, H0. split; [lia|reflexivity].
  - rewrite Hs. split; [discriminate|lia].
Qed.

(** ** [predict_sales]: the average *)

Lemma inject_nat_nonzero (n : nat) :
  (0 < n)%nat -> ~ (inject_Z (Z.of_nat n) == 0)%Q.
Proof.
  intros Hn H. unfold Qeq in H. simpl in H. lia.
Qed.

(** C8: [avg_per_shop] is computed by the guarded division
    [guarded_avg], which is 0 for a count of 0 and the quotient
    otherwise.  In every summary that [predict_sales] returns the count
    is positive, so the guard's 0 branch is not taken, the divisor is
    not zero, and [avg_per_shop] is [total_sales / n_shops]. *)
Theorem avg_per_shop_guarded (df : DataFrame) (item : Z) (s : PredictionSummary) :
  predict_sales df item = Some s ->
  avg_per_shop s = guarded_avg (total_sales s) (n_shops s) /\
  (forall total : Q, guarded_avg total 0 = 0%Q) /\
  (0 < n_shops s)%nat /\
  ~ (inject_Z (Z.of_nat (n_shops s)) == 0)%Q /\
  avg_per_shop s = (total_sales s / inject_Z (Z.of_nat (n_shops s)))%Q.
Proof.
  intros Hs.
  destruct (predict_sales_cases df item) as [[_ Hn]|[Hpos Hs']]; [congruence|].
  rewrite Hs' in Hs. injection Hs as <-. simpl.
  rewrite <- select_item_length in Hpos. unfold len.
  repeat split.
  - exact Hpos.
  - apply inject_nat_nonzero, Hpos.
  - unfold guarded_avg.
    destruct (0 <? length (select_item df item))%nat eqn:E; [reflexivity|].
    apply Nat.ltb_ge in E. lia.
Qed.

(** On [table3], item 1 has 2 shops and the average is the quotient. *)
Lemma avg_per_shop_guarded_witness :
  exists s : PredictionSummary,
    predict_sales table3 1 = Some s /\
    n_shops s = 2%nat /\
    avg_per_shop s = (total_sales s / inject_Z (Z.of_nat (n_shops s)))%Q.
Proof.
  eexists. split; [reflexivity|]. split; [reflexivity|].
  apply (avg_per_shop_guarded table3 1). reflexivity.
Defined.

(** ** [predict_sales]: the ranked shops *)

Lemma nlargest_length (n : nat) (df : DataFrame) :
  length (nlargest n df) = Nat.min n (length df).
Proof.
  unfold nlargest. rewrite length_firstn, stable_sort_length. reflexivity.
Qed.





(** ** Grouping: one total per item *)

Lemma StronglySorted_lt_NoDup (l : list Z) : StronglySorted Z.lt l -> NoDup l.
Proof.
  induction 1 as [|x l Hs IH Hx]; constructor.
  - intros Hin. rewrite Forall_forall in Hx. specialize (Hx x Hin). lia.
  - exact IH.
Qed.

Lemma group_add_keys (k : Z) (v : Q) (g : list (Z * Q)) (k' : Z) :
  In k' (map fst (group_add k v g)) <-> k' = k \/ In k' (map fst g).
Proof.
  induction g as [|[k0 t0] g IH]; simpl.
  - intuition.
  - destruct (k <? k0) eqn:Elt; [simpl; intuition|].
    destruct (k =? k0) eqn:Eeq; simpl.
    + apply Z.eqb_eq in Eeq. subst k0. intuition.
    + rewrite IH. intuition.
Qed.

Lemma group_add_sorted (k : Z) (v : Q) (g : list (Z * Q)) :
  StronglySorted Z.lt (map fst g) ->
  StronglySorted Z.lt (map fst (group_add k v g)).
Proof.
  induction g as [|[k0 t0] g IH]; simpl; intros Hs.
  - repeat constructor.
  - inversion Hs as [|? ? Hs' Hk0]; subst.
    destruct (k <? k0) eqn:Elt; [|destruct (k =? k0) eqn:Eeq]; simpl.
    + apply Z.ltb_lt in Elt. constructor; [exact Hs|].
      constructor; [exact Elt|].
      eapply Forall_impl; [|exact Hk0]. intros z Hz. simpl in Hz. lia.
    + exact Hs.
    + apply Z.ltb_ge in Elt. apply Z.eqb_neq in Eeq.
      constructor; [apply IH, Hs'|].
      rewrite Forall_forall in *. intros z Hz.
      apply group_add_keys in Hz. destruct Hz as [->|Hz]; [lia|].
      apply Hk0, Hz.
Qed.

(** Where the total of a key of [group_add k v g] comes from. *)
Lemma group_add_In (k : Z) (v : Q) (g : list (Z * Q)) (k' : Z) (t' : Q) :
  StronglySorted Z.lt (map fst g) ->
  In (k', t') (group_add k v g) ->
  (k' <> k /\ In (k', t') g) \/
  (k' = k /\ ~ In k (map fst g) /\ t' = v) \/
  (k' = k /\ exists t, In (k, t) g /\ t' = (t + v)%Q).
Proof.
  induction g as [|[k0 t0] g IH]; simpl; intros Hs Hin.
  - destruct Hin as [E|[]]. injection E as <- <-. right. left. tauto.
  - inversion Hs as [|? ? Hs' Hk0]; subst.
    rewrite Forall_forall in Hk0.
    assert (Hkeys : forall z t, In (z, t) g -> k0 < z).
    { intros z t Hz. apply Hk0. apply (in_map fst) in Hz. exact Hz. }
    destruct (k <? k0) eqn:Elt; [|destruct (k =? k0) eqn:Eeq]; simpl in Hin.
    + apply Z.ltb_lt in Elt. destruct Hin as [E|[E|Hin]].
      * injection E as <- <-. right. left. repeat split.
        intros [E|Hin]; [simpl in E; lia|]. specialize (Hk0 _ Hin). lia.
      * injection E as <- <-. left. split; [lia|]. left. reflexivity.
      * left. specialize (Hkeys _ _ Hin). split; [lia|]. right. exact Hin.
    + apply Z.eqb_eq in Eeq. subst k0. destruct Hin as [E|Hin].
      * injection E as <- <-. right. right. split; [reflexivity|].
        exists t0. split; [left|]; reflexivity.
      * left. specialize (Hkeys _ _ Hin). split; [lia|]. right. exact Hin.
    + apply Z.ltb_ge in Elt. apply Z.eqb_neq in Eeq. destruct Hin as [E|Hin].
      * injection E as <- <-. left. split; [lia|]. left. reflexivity.
      * destruct (IH Hs' Hin) as [[Hne Hg]|[(-> & Hnot & ->)|(-> & t & Hg & ->)]].
        -- left. split; [exact Hne|]. right. exact Hg.
        -- right. left. repeat split. simpl. intros [E|H']; [lia|tauto].
        -- right. right. split; [reflexivity|]. exists t.
           split; [right; exact Hg|reflexivity].
Qed.

Lemma matching_sum_app (df : DataFrame) (r : PredictionRow) (item : Z) :
  (matching_sum (df ++ [r]) item ==
   matching_sum df item +
   (if Z.eq_dec (item_id r) item then item_cnt_month r else 0))%Q.
Proof.
  induction df as [|r0 df IH]; simpl.
  - destruct (Z.eq_dec (item_id r) item); ring.
  - destruct (Z.eq_dec (item_id r0) item); rewrite IH; ring.
Qed.

Lemma matching_sum_absent (df : DataFrame) (item : Z) :
  ~ In item (map item_id df) -> matching_sum df item = 0%Q.
Proof.
  induction df as [|r df IH]; simpl; intros Hn.
  - reflexivity.
  - destruct (Z.eq_dec (item_id r) item) as [E|E]; [tauto|].
    apply IH. tauto.
Qed.

Lemma groupby_sum_snoc (df : DataFrame) (r : PredictionRow) :
  groupby_sum (df ++ [r]) =
  group_add (item_id r) (item_cnt_month r) (groupby_sum df).
Proof. unfold groupby_sum. rewrite fold_left_app. reflexivity. Qed.

(** [groupby_sum] has its keys in strictly ascending order, has exactly
    the items of the table as keys, and pairs each with the sum of its
    rows. *)
Lemma groupby_sum_spec (df : DataFrame) :
  StronglySorted Z.lt (map fst (groupby_sum df)) /\
  (forall k, In k (map fst (groupby_sum df)) <-> In k (map item_id df)) /\
  (forall k t, In (k, t) (groupby_sum df) -> (t == matching_sum df k)%Q).
Proof.
  induction df as [|r df (Hs & Hk & Ht)] using rev_ind.
  - simpl. repeat split; try tauto. constructor.
  - rewrite groupby_sum_snoc. split; [|split].
    + apply group_add_sorted, Hs.
    + intros k. rewrite group_add_keys, Hk, map_app, in_app_iff. simpl.
      intuition.
    + intros k t Hin. rewrite matching_sum_app.
      destruct (group_add_In _ _ _ _ _ Hs Hin)
        as [[Hne Hg]|[(-> & Hnot & ->)|(-> & t0 & Hg & ->)]].
      * destruct (Z.eq_dec (item_id r) k) as [E|E]; [congruence|].
        rewrite (Ht _ _ Hg). ring.
      * destruct (Z.eq_dec (item_id r) (item_id r)) as [_|E]; [|congruence].
        rewrite matching_sum_absent; [ring|]. rewrite <- Hk. exact Hnot.
      * destruct (Z.eq_dec (item_id r) (item_id r)) as [_|E]; [|congruence].
        rewrite (Ht _ _ Hg). reflexivity.
Qed.

(** The sorted totals: the same rows, descending. *)
Lemma item_totals_spec (df : DataFrame) :
  let item_totals := sort_values_desc (groupby_sum df) in
  NoDup (map fst item_totals) /\
  (forall i, In i (map fst item_totals) <-> In i (map item_id df)) /\
  (forall i t, In (i, t) item_totals -> (t == matching_sum df i)%Q) /\
  StronglySorted (ge_key snd) item_totals.
Proof.
  intros item_totals. subst item_totals. unfold sort_values_desc.
  destruct (groupby_sum_spec df) as (Hs & Hk & Ht).
  pose proof (stable_sort_perm (desc_by snd) (groupby_sum df)) as Hp.
  repeat split.
  - eapply Permutation_NoDup; [apply Permutation_map, Hp|].
    apply StronglySorted_lt_NoDup, Hs.
  - intros Hin. apply Hk.
    eapply Permutation_in; [apply Permutation_sym, Permutation_map, Hp|exact Hin].
  - intros Hin. apply Hk in Hin.
    eapply Permutation_in; [apply Permutation_map, Hp|exact Hin].
  - intros i t Hin. apply Ht. apply stable_sort_In in Hin. exact Hin.
  - apply stable_sort_desc_sorted.
Qed.

(** ** [get_sample_items] *)

Lemma get_sample_items_app (df : DataFrame) (n : Z) :
  get_sample_items df n = top_items df ++ mid_items df ++ low_items df.
Proof. reflexivity. Qed.

(** C7: [get_sample_items] is total (the three slices are clamped to the
    frame, whatever its length) and returns at most 10 items; with
    [count] distinct items in the table it returns
    [min 3 count + min 4 (count - count / 2) + min 3 count] of them. *)
Theorem get_sample_items_length (df : DataFrame) (n : Z) :
  let count := length (groupby_sum df) in
  (length (get_sample_items df n) <= 10)%nat /\
  length (get_sample_items df n) =
  (Nat.min 3 count + Nat.min 4 (count - count / 2) + Nat.min 3 count)%nat.
Proof.
  intros count.
  assert (Hlen : length (get_sample_items df n) =
    (Nat.min 3 count + Nat.min 4 (count - count / 2) + Nat.min 3 count)%nat).
  { unfold get_sample_items, head, iloc, tail, len, sort_values_desc.
    rewrite !length_app, !length_map, !length_firstn, !length_skipn.
    rewrite !stable_sort_length. fold count.
    replace (count / 2 + 4 - count / 2)%nat with 4%nat by lia.
    lia. }
  split; [|exact Hlen]. rewrite Hlen. lia.
Qed.

(** C10: the parameter [n] has no effect on the result: any two values
    of [n] give the same sample, whose group sizes 3, 4 and 3 are fixed.
    In particular [n] is not the size of the sample: on the table of 20
    items a request for 3 items returns the same 10 as the default. *)
Theorem get_sample_items_ignores_n (df : DataFrame) (n1 n2 : Z) :
  get_sample_items df n1 = get_sample_items df n2 /\
  get_sample_items df n1 = top_items df ++ mid_items df ++ low_items df /\
  length (get_sample_items table20 3) = 10%nat.
Proof.
  split; [reflexivity|]. split; [reflexivity|].
  vm_compute. reflexivity.
Qed.

(** ** The bottom group *)



(** ** The option list of [main] *)

Lemma In_firstn_In {A : Type} (n : nat) (l : list A) (x : A) :
  In x (firstn n l) -> In x l.
Proof.
  intros H. rewrite <- (firstn_skipn n l). apply in_or_app. left. exact H.
Qed.

Lemma In_skipn_In {A : Type} (n : nat) (l : list A) (x : A) :
  In x (skipn n l) -> In x l.
Proof.
  intros H. rewrite <- (firstn_skipn n l). apply in_or_app. right. exact H.
Qed.

Lemma StronglySorted_filter {A : Type} (R : A -> A -> Prop) (p : A -> bool)
    (l : list A) :
  StronglySorted R l -> StronglySorted R (filter p l).
Proof.
  induction 1 as [|x l Hs IH Hx]; simpl.
  - constructor.
  - destruct (p x); [|exact IH].
    constructor; [exact IH|].
    rewrite Forall_forall in *. intros y Hy.
    apply filter_In in Hy. apply Hx, Hy.
Qed.

Lemma StronglySorted_le_NoDup_lt (l : list Z) :
  StronglySorted Z.le l -> NoDup l -> StronglySorted Z.lt l.
Proof.
  induction 1 as [|x l Hs IH Hx]; intros Hnd.
  - constructor.
  - inversion Hnd as [|? ? Hnot Hnd']; subst.
    constructor; [apply IH, Hnd'|].
    rewrite Forall_forall in *. intros y Hy.
    specialize (Hx y Hy).
    assert (x <> y) by (intros ->; contradiction).
    lia.
Qed.

Lemma unique_In (l : list Z) (x : Z) : In x (unique l) <-> In x l.
Proof.
  induction l as [|y l IH]; simpl.
  - tauto.
  - rewrite filter_In, IH, negb_true_iff, Z.eqb_neq.
    destruct (Z.eq_dec y x); intuition congruence.
Qed.

Lemma unique_NoDup (l : list Z) : NoDup (unique l).
Proof.
  induction l as [|y l IH]; simpl.
  - constructor.
  - constructor.
    + rewrite filter_In, negb_true_iff, Z.eqb_neq. tauto.
    + apply NoDup_filter, IH.
Qed.

Lemma sorted_ascending (l : list Z) : StronglySorted Z.le (sorted l).
Proof.
  unfold sorted.
  eapply StronglySorted_weaken; [|apply stable_sort_sorted].
  - intros a b. unfold before. apply Z.leb_le.
  - intros x y. rewrite !Z.leb_le. lia.
  - intros x y z. rewrite !Z.leb_le. lia.
Qed.

Lemma all_items_spec (df : DataFrame) :
  let all_items := sorted (unique (map item_id df)) in
  StronglySorted Z.lt all_items /\
  (forall i, In i all_items <-> In i (map item_id df)).
Proof.
  intros all_items. subst all_items. split.
  - apply StronglySorted_le_NoDup_lt; [apply sorted_ascending|].
    unfold sorted.
    eapply Permutation_NoDup; [apply stable_sort_perm|apply unique_NoDup].
  - intros i. unfold sorted. rewrite stable_sort_In. apply unique_In.
Qed.

Lemma get_sample_items_incl (df : DataFrame) (n i : Z) :
  In i (get_sample_items df n) -> In i (map item_id df).
Proof.
  destruct (item_totals_spec df) as (_ & Hk & _).
  intros Hin. apply Hk.
  unfold get_sample_items, head, iloc, tail in Hin.
  rewrite !in_app_iff, !in_map_iff in Hin. apply in_map_iff.
  destruct Hin as [(x & E & H)|[(x & E & H)|(x & E & H)]];
    exists x; (split; [exact E|]).
  - eapply In_firstn_In, H.
  - eapply In_skipn_In, In_firstn_In, H.
  - eapply In_skipn_In, H.
Qed.

(** C6, as the specification states it, fails.  On the table of items
    1..20 the list starts [0; 20; 19; 18; 10; ...]: the sample stands
    first, in its own order, so the entries after the sentinel are not
    ascending and the list is not the sorted union.  On a table of two
    items the sample itself repeats items, and so does the list. *)
Lemma options_not_sorted_union :
  options table20 <> options_spec table20 /\
  firstn 5 (options table20) = [0; 20; 19; 18; 10] /\
  ~ StronglySorted Z.lt (skipn 1 (options table20)) /\
  options table2 = [0; 2; 1; 1; 2; 1] /\
  options_spec table2 = [0; 1; 2] /\
  count_occ Z.eq_dec (options table2) 1 = 3%nat.
Proof.
  split; [vm_compute; discriminate|].
  split; [vm_compute; reflexivity|].
  split; [|split; [|split]]; try (vm_compute; reflexivity).
  intros H.
  assert (E : skipn 1 (options table20) =
              20 :: 19 :: skipn 3 (options table20)) by (vm_compute; reflexivity).
  rewrite E in H. inversion H as [|? ? _ Hall]; subst.
  inversion Hall as [|? ? Hlt _]; subst. lia.
Qed.

(** C6, amended: the list is the sentinel 0, then the sample in the order
    [get_sample_items] returns it, then the items of the table that are
    not in the sample, in strictly ascending order.  Every item of the
    table occurs after the sentinel, nothing else does, and an item
    outside the sample occurs there exactly once. *)
Theorem options_layout (df : DataFrame) :
  let sample_items := get_sample_items df 10 in
  exists rest : list Z,
    options df = 0 :: sample_items ++ rest /\
    StronglySorted Z.lt rest /\
    (forall i, In i rest <-> In i (map item_id df) /\ ~ In i sample_items) /\
    (forall i, In i (sample_items ++ rest) <-> In i (map item_id df)) /\
    (forall i, In i (map item_id df) -> ~ In i sample_items ->
               count_occ Z.eq_dec (sample_items ++ rest) i = 1%nat).
Proof.
  intros sample_items.
  destruct (all_items_spec df) as (Hs & Hk).
  set (all_items := sorted (unique (map item_id df))) in *.
  set (fresh := fun item => negb (existsb (Z.eqb item) sample_items)).
  assert (Hfresh : forall i, fresh i = true <-> ~ In i sample_items).
  { intros i. unfold fresh. rewrite negb_true_iff.
    rewrite <- not_true_iff_false, existsb_exists.
    split; intros H.
    - intros Hin. apply H. exists i. split; [exact Hin|apply Z.eqb_refl].
    - intros (x & Hin & E). apply Z.eqb_eq in E. subst x. contradiction. }
  assert (Hrest : forall i, In i (filter fresh all_items) <->
                            In i (map item_id df) /\ ~ In i sample_items).
  { intros i. rewrite filter_In, Hk, Hfresh. reflexivity. }
  assert (Hrs : StronglySorted Z.lt (filter fresh all_items)).
  { apply StronglySorted_filter, Hs. }
  exists (filter fresh all_items).
  split; [reflexivity|]. split; [exact Hrs|]. split; [exact Hrest|]. split.
  - intros i. rewrite in_app_iff, Hrest. split.
    + intros [H|[H _]]; [|exact H].
      apply (get_sample_items_incl df 10 i H).
    + intros H. destruct (in_dec Z.eq_dec i sample_items); tauto.
  - intros i Hin Hnot. rewrite count_occ_app.
    rewrite (proj1 (count_occ_not_In Z.eq_dec sample_items i) Hnot).
    simpl. apply NoDup_count_occ'.
    + apply StronglySorted_lt_NoDup, Hrs.
    + apply Hrest. split; assumption.
Qed.

(** ** Descending lists *)

Lemma sorted_desc_first {A : Type} (key : A -> Q) (l : list A) (b x : A) :
  StronglySorted (ge_key key) (b :: l) -> In x (b :: l) ->
  (key x <= key b)%Q.
Proof.
  intros Hs [<-|Hin].
  - apply Qle_refl.
  - inversion Hs as [|? ? _ Hb]; subst.
    rewrite Forall_forall in Hb. apply Hb, Hin.
Qed.

(** ** What a click displays *)

Lemma options_In (df : DataFrame) (i : Z) :
  In i (options df) <-> i = 0 \/ In i (map item_id df).
Proof.
  destruct (all_items_spec df) as (_ & Hk).
  unfold options. cbn [app]. simpl In.
  rewrite in_app_iff, filter_In, Hk. split.
  - intros [E|[H|[H _]]].
    + left. symmetry. exact E.
    + right. apply (get_sample_items_incl df 10 i H).
    + right. exact H.
  - intros [->|H]; [left; reflexivity|]. right.
    destruct (existsb (Z.eqb i) (get_sample_items df 10)) eqn:E.
    + left. apply existsb_exists in E. destruct E as (x & Hx & Ex).
      apply Z.eqb_eq in Ex. subst x. exact Hx.
    + right. split; [exact H|reflexivity].
Qed.

(** X3: the select box and the click.
    - The options are the sentinel 0 and exactly the items of the table.
    - A click on "Predict Sales" with an option selected never reports
      "not found": the sentinel gives the warning, every other option
      gives the prediction that [predict_sales] computes.
    - Rows of the table with [item_id] 0 are out of reach: [predict_sales]
      finds them, but no click displays a prediction for 0. *)
Theorem respond_to_option (df : DataFrame) :
  (forall i, In i (options df) <-> i = 0 \/ In i (map item_id df)) /\
  (forall i, In i (options df) ->
     (i = 0 /\ respond df true i = SelectWarning) \/
     (i <> 0 /\ exists s : PredictionSummary,
         predict_sales df i = Some s /\ respond df true i = Prediction i s)) /\
  (In 0 (map item_id df) ->
     (exists s : PredictionSummary, predict_sales df 0 = Some s) /\
     forall (button : bool) (item : Z) (s : PredictionSummary),
       respond df button 0 <> Prediction item s).
Proof.
  split; [apply options_In|]. split.
  - intros i Hin. apply options_In in Hin.
    destruct (Z.eq_dec i 0) as [->|Hne].
    + left. split; reflexivity.
    + right. split; [exact Hne|].
      destruct Hin as [E|Hin]; [contradiction|].
      apply matching_rows_pos in Hin.
      destruct (predict_sales_cases df i) as [[H0 _]|[_ Hs]]; [lia|].
      eexists. split; [exact Hs|].
      unfold respond. apply Z.eqb_neq in Hne. rewrite Hne, Hs. reflexivity.
  - intros H0. split.
    + apply matching_rows_pos in H0.
      destruct (predict_sales_cases df 0) as [[E _]|[_ Hs]]; [lia|].
      eexists. exact Hs.
    + intros button item s. unfold respond.
      destruct button; simpl; discriminate.
Qed.

(** On [table3] the option 1 gives its prediction, the sentinel the
    warning. *)
Lemma respond_to_option_witness :
  In 1 (options table3) /\
  respond table3 true 0 = SelectWarning /\
  exists s : PredictionSummary,
    predict_sales table3 1 = Some s /\ respond table3 true 1 = Prediction 1 s.
Proof.
  assert (H1 : In 1 (options table3)) by (vm_compute; tauto).
  split; [exact H1|]. split; [reflexivity|].
  destruct (proj1 (proj2 (respond_to_option table3)) 1 H1)
    as [[E _]|[_ Hs]]; [discriminate E|exact Hs].
Defined.

(** ** Columns of the selection *)

Lemma map_snd_shop_columns (rows : DataFrame) :
  map snd (map shop_columns rows) = map item_cnt_month rows.
Proof. rewrite map_map. reflexivity. Qed.

(** ** The quick stats *)

Lemma same_elements_length (l1 l2 : list Z) :
  NoDup l1 -> NoDup l2 -> (forall x, In x l1 <-> In x l2) ->
  length l1 = length l2.
Proof.
  intros H1 H2 H. apply Permutation_length, NoDup_Permutation; assumption.
Qed.

Lemma unique_length_le (l : list Z) : (length (unique l) <= length l)%nat.
Proof.
  apply NoDup_incl_length; [apply unique_NoDup|].
  intros x. apply unique_In.
Qed.

(** The number of distinct items is the number of groups. *)
Lemma nunique_groups (df : DataFrame) :
  nunique (map item_id df) = length (groupby_sum df).
Proof.
  destruct (groupby_sum_spec df) as (Hs & Hk & _).
  unfold nunique, len. rewrite <- (length_map fst (groupby_sum df)).
  apply same_elements_length.
  - apply unique_NoDup.
  - apply StronglySorted_lt_NoDup, Hs.
  - intros x. rewrite unique_In, Hk. reflexivity.
Qed.

Lemma shops_metric_rows (df : DataFrame) (item : Z) :
  shops_metric df item = matching_rows df item.
Proof.
  unfold shops_metric.
  destruct (predict_sales_cases df item) as [[H0 Hn]|[_ Hs]].
  - rewrite Hn, H0. reflexivity.
  - rewrite Hs. simpl. apply select_item_length.
Qed.

Lemma count_occ_cons_sum (x : Z) (l ks : list Z) :
  list_sum (map (count_occ Z.eq_dec (x :: l)) ks) =
  (count_occ Z.eq_dec ks x + list_sum (map (count_occ Z.eq_dec l) ks))%nat.
Proof.
  induction ks as [|k ks IH].
  - reflexivity.
  - change (list_sum (map (count_occ Z.eq_dec (x :: l)) (k :: ks)))
      with (count_occ Z.eq_dec (x :: l) k +
            list_sum (map (count_occ Z.eq_dec (x :: l)) ks))%nat.
    change (list_sum (map (count_occ Z.eq_dec l) (k :: ks)))
      with (count_occ Z.eq_dec l k +
            list_sum (map (count_occ Z.eq_dec l) ks))%nat.
    rewrite IH. simpl.
    destruct (Z.eq_dec x k) as [E|E], (Z.eq_dec k x) as [E'|E'];
      try congruence; lia.
Qed.

Lemma count_occ_partition (l ks : list Z) :
  NoDup ks -> (forall x, In x l -> In x ks) ->
  list_sum (map (count_occ Z.eq_dec l) ks) = length l.
Proof.
  intros Hnd. induction l as [|x l IH]; intros Hin.
  - clear Hnd Hin. induction ks as [|k ks IHk]; [reflexivity|exact IHk].
  - rewrite count_occ_cons_sum, IH by (intros y Hy; apply Hin; right; exact Hy).
    rewrite (proj1 (NoDup_count_occ' Z.eq_dec ks) Hnd x)
      by (apply Hin; left; reflexivity).
    reflexivity.
Qed.

(** X6: the quick stats are consistent with the rest of the page.
    "Available Items" is the number of groups that [get_sample_items]
    ranks; neither it nor "Shops Covered" exceeds "Total Predictions";
    and the "Number of Shops" metrics of the available items add up to
    "Total Predictions": every row of the table is counted under exactly
    one item. *)
Theorem quick_stats_consistent (df : DataFrame) :
  let stats := quick_stats df in
  available_items stats = length (sort_values_desc (groupby_sum df)) /\
  (available_items stats <= total_predictions stats)%nat /\
  (shops_covered stats <= total_predictions stats)%nat /\
  list_sum (map (shops_metric df) (unique (map item_id df))) =
  total_predictions stats.
Proof.
  intros stats. subst stats. unfold quick_stats.
  cbn [available_items total_predictions shops_covered].
  split; [|split; [|split]].
  - unfold sort_values_desc. rewrite stable_sort_length. apply nunique_groups.
  - unfold nunique, len.
    etransitivity; [apply unique_length_le|]. rewrite length_map. reflexivity.
  - unfold nunique, len.
    etransitivity; [apply unique_length_le|]. rewrite length_map. reflexivity.
  - rewrite (map_ext _ _ (shops_metric_rows df)).
    unfold len. rewrite <- (length_map item_id df).
    apply (count_occ_partition (map item_id df)); [apply unique_NoDup|].
    intros x. apply unique_In.
Qed.

(** ** When the sample repeats an item *)

Lemma NoDup_app_disjoint {A : Type} (l1 l2 : list A) (x : A) :
  NoDup (l1 ++ l2) -> In x l1 -> In x l2 -> False.
Proof.
  induction l1 as [|y l1 IH]; simpl; intros Hnd H1 H2.
  - exact H1.
  - inversion Hnd as [|? ? Hnot Hnd']; subst.
    destruct H1 as [->|H1].
    + apply Hnot, in_or_app. right. exact H2.
    + apply IH; assumption.
Qed.

Lemma NoDup_firstn {A : Type} (n : nat) (l : list A) :
  NoDup l -> NoDup (firstn n l).
Proof.
  intros H. rewrite <- (firstn_skipn n l) in H.
  apply NoDup_app_remove_r in H. exact H.
Qed.

Lemma NoDup_skipn {A : Type} (n : nat) (l : list A) :
  NoDup l -> NoDup (skipn n l).
Proof.
  intros H. rewrite <- (firstn_skipn n l) in H.
  apply NoDup_app_remove_l in H. exact H.
Qed.

(** Three slices of a list without repeats that do not overlap. *)
Lemma NoDup_slices {A : Type} (a b m d : nat) (l : list A) :
  NoDup l -> (a <= b)%nat -> (b + m <= d)%nat ->
  NoDup (firstn a l ++ firstn m (skipn b l) ++ skipn d l).
Proof.
  intros Hnd Hab Hbd.
  assert (Hlow : skipn d l = skipn (d - b - m) (skipn m (skipn b l))).
  { rewrite !skipn_skipn. f_equal. lia. }
  assert (Htop : firstn a l = firstn a (firstn b l)).
  { rewrite firstn_firstn. f_equal. lia. }
  apply NoDup_app.
  - apply NoDup_firstn, Hnd.
  - apply NoDup_app.
    + apply NoDup_firstn, NoDup_skipn, Hnd.
    + apply NoDup_skipn, Hnd.
    + intros x H1 H2. rewrite Hlow in H2. apply In_skipn_In in H2.
      apply (NoDup_app_disjoint (firstn m (skipn b l)) (skipn m (skipn b l)) x);
        [|assumption|assumption].
      rewrite firstn_skipn. apply NoDup_skipn, Hnd.
  - intros x H1 H2. rewrite Htop in H1. apply In_firstn_In in H1.
    apply (NoDup_app_disjoint (firstn b l) (skipn b l) x);
      [rewrite firstn_skipn; exact Hnd|exact H1|].
    apply in_app_iff in H2. destruct H2 as [H2|H2].
    + apply In_firstn_In in H2. exact H2.
    + rewrite Hlow in H2. apply In_skipn_In, In_skipn_In in H2. exact H2.
Qed.

(** The sample as slices of the ranked item ids. *)
Lemma get_sample_items_slices (df : DataFrame) (n : Z) :
  let ids := map fst (sort_values_desc (groupby_sum df)) in
  let count := length ids in
  get_sample_items df n =
  firstn 3 ids ++ firstn 4 (skipn (count / 2) ids) ++ skipn (count - 3) ids.
Proof.
  intros ids count. subst ids count.
  unfold get_sample_items, head, iloc, tail, len.
  rewrite !firstn_map, !skipn_map, length_map.
  replace (length (sort_values_desc (groupby_sum df)) / 2 + 4 -
           length (sort_values_desc (groupby_sum df)) / 2)%nat with 4%nat by lia.
  rewrite firstn_map. reflexivity.
Qed.

Lemma ranked_ids_count (df : DataFrame) :
  length (map fst (sort_values_desc (groupby_sum df))) =
  nunique (map item_id df).
Proof.
  rewrite length_map. unfold sort_values_desc.
  rewrite stable_sort_length. symmetry. apply nunique_groups.
Qed.

(** With 1 to 12 entries, the entry at index [count - 3] is sampled
    twice. *)
Lemma slices_overlap {A : Type} (l : list A) :
  (1 <= length l <= 12)%nat ->
  ~ NoDup (firstn 3 l ++ firstn 4 (skipn (length l / 2) l)
                      ++ skipn (length l - 3) l).
Proof.
  intros Hc Hnd. set (c := length l) in *.
  pose proof (Nat.div_mod_eq c 2) as Hdiv.
  pose proof (Nat.mod_upper_bound c 2) as Hmod.
  destruct (nth_error l (c - 3)) as [x|] eqn:Ex.
  2:{ apply nth_error_None in Ex. fold c in Ex. lia. }
  assert (Hlow : In x (skipn (c - 3) l)).
  { apply (nth_error_In _ 0). rewrite nth_error_skipn, Nat.add_0_r. exact Ex. }
  destruct (Nat.le_gt_cases c 5) as [Hle|Hgt].
  - apply (NoDup_app_disjoint _ _ x Hnd).
    + apply (nth_error_In _ (c - 3)). rewrite nth_error_firstn.
      replace (c - 3 <? 3)%nat with true by (symmetry; apply Nat.ltb_lt; lia).
      exact Ex.
    + apply in_or_app. right. exact Hlow.
  - apply NoDup_app_remove_l in Hnd.
    apply (NoDup_app_disjoint _ _ x Hnd); [|exact Hlow].
    apply (nth_error_In _ (c - 3 - c / 2)).
    rewrite nth_error_firstn, nth_error_skipn.
    replace (c - 3 - c / 2 <? 4)%nat with true by (symmetry; apply Nat.ltb_lt; lia).
    replace (c / 2 + (c - 3 - c / 2))%nat with (c - 3)%nat by lia.
    exact Ex.
Qed.

Lemma options_rest (df : DataFrame) :
  exists rest : list Z,
    options df = 0 :: get_sample_items df 10 ++ rest /\
    NoDup rest /\
    (forall i, In i rest <->
               In i (map item_id df) /\ ~ In i (get_sample_items df 10)).
Proof.
  destruct (all_items_spec df) as (Hs & Hk).
  exists (filter (fun item => negb (existsb (Z.eqb item) (get_sample_items df 10)))
                 (sorted (unique (map item_id df)))).
  split; [reflexivity|]. split.
  - apply NoDup_filter, StronglySorted_lt_NoDup, Hs.
  - intros i. rewrite filter_In, Hk, negb_true_iff.
    rewrite <- not_true_iff_false, existsb_exists. split.
    + intros [Hi Hn]. split; [exact Hi|]. intros Hin. apply Hn.
      exists i. split; [exact Hin|apply Z.eqb_refl].
    + intros [Hi Hn]. split; [exact Hi|]. intros (x & Hx & E).
      apply Z.eqb_eq in E. subst x. contradiction.
Qed.

(** X7: [get_sample_items] returns no item twice exactly when the table
    has no item or at least 13 distinct items.  With at least 13 it
    returns 10 different items; the option list then shows every item of
    the table once after the sentinel. *)
Theorem sample_without_repeats (df : DataFrame) (n : Z) :
  let count := nunique (map item_id df) in
  (NoDup (get_sample_items df n) <-> count = 0 \/ 13 <= count)%nat /\
  ((13 <= count)%nat ->
   length (get_sample_items df n) = 10%nat /\
   NoDup (skipn 1 (options df)) /\
   length (options df) = S count).
Proof.
  intros count.
  pose proof (get_sample_items_slices df n) as Hsl. cbv zeta in Hsl.
  pose proof (ranked_ids_count df) as Hc. fold count in Hc.
  destruct (item_totals_spec df) as (Hnd & Hk & _).
  set (ids := map fst (sort_values_desc (groupby_sum df))) in *.
  pose proof (Nat.div_mod_eq count 2) as Hdiv.
  pose proof (Nat.mod_upper_bound count 2) as Hmod.
  assert (Hbig : (13 <= count)%nat -> NoDup (get_sample_items df n)).
  { intros H13. rewrite Hsl, Hc. apply NoDup_slices; [exact Hnd|lia|lia]. }
  split.
  - split.
    + intros Hs. destruct (Nat.eq_dec count 0) as [E|E]; [left; exact E|].
      destruct (Nat.le_gt_cases 13 count) as [H|H]; [right; exact H|].
      exfalso. rewrite Hsl in Hs. apply (slices_overlap ids); [lia|exact Hs].
    + intros [E|H13]; [|apply Hbig, H13].
      rewrite Hsl. destruct ids; [constructor|simpl in Hc; lia].
  - intros H13.
    assert (Hlen : length (get_sample_items df n) = 10%nat).
    { rewrite Hsl, !length_app, !length_firstn, !length_skipn, Hc. lia. }
    destruct (options_rest df) as (rest & Hopt & Hrest & Hin).
    assert (Hall : NoDup (get_sample_items df 10 ++ rest)).
    { apply NoDup_app; [|exact Hrest|].
      - change (get_sample_items df 10) with (get_sample_items df n).
        apply Hbig, H13.
      - intros i Hi Hr. apply Hin in Hr. tauto. }
    split; [exact Hlen|]. rewrite Hopt. split; [exact Hall|].
    cbn [length]. f_equal. unfold count, nunique, len.
    apply same_elements_length; [exact Hall|apply unique_NoDup|].
    intros i. rewrite unique_In, in_app_iff, Hin. split.
    + intros [H|[H _]]; [apply (get_sample_items_incl df 10 i H)|exact H].
    + intros H. destruct (in_dec Z.eq_dec i (get_sample_items df 10)); tauto.
Qed.

(** The table of items 1..20 has 20 distinct items: 10 different items
    are sampled and the option list has 21 entries. *)
Lemma sample_without_repeats_witness :
  (13 <= nunique (map item_id table20))%nat /\
  NoDup (get_sample_items table20 10) /\
  length (get_sample_items table20 10) = 10%nat /\
  length (options table20) = 21%nat.
Proof.
  assert (H13 : (13 <= nunique (map item_id table20))%nat)
    by (vm_compute; repeat constructor).
  destruct (sample_without_repeats table20 10) as (Hiff & Hbig).
  destruct (Hbig H13) as (Hlen & _ & Hopt).
  split; [exact H13|]. split; [apply Hiff; right; exact H13|].
  split; [exact Hlen|exact Hopt].
Defined.

(** ** The category line *)

Lemma filter_first_match {A : Type} (p : A -> bool) (l : list A) (x : A)
    (rest : list A) :
  filter p l = x :: rest ->
  exists front back : list A,
    l = front ++ x :: back /\ (forall y, In y front -> p y = false).
Proof.
  induction l as [|y l IH]; simpl; intros H.
  - discriminate.
  - destruct (p y) eqn:Py.
    + injection H as -> _. exists [], l. split; [reflexivity|]. intros ? [].
    + destruct (IH H) as (front & back & -> & Hf).
      exists (y :: front), back. split; [reflexivity|].
      intros z [<-|Hz]; [exact Py|apply Hf, Hz].
Qed.

Lemma filter_skip_front {A : Type} (p : A -> bool) (front back : list A) :
  (forall y, In y front -> p y = false) ->
  filter p (front ++ back) = filter p back.
Proof.
  induction front as [|y front IH]; simpl; intros H.
  - reflexivity.
  - rewrite (H y) by (left; reflexivity). apply IH.
    intros z Hz. apply H. right. exact Hz.
Qed.

(** The line shows the category of the first matching row. *)
Lemma category_line_cases (items_df : list ItemRow) (item : Z) :
  category_line (Some items_df) item =
  match filter (fun r => info_item_id r =? item) items_df with
  | [] => NoCategory
  | d :: _ => Category (item_category_id d)
  end.
Proof.
  unfold category_line, len.
  destruct (filter (fun r => info_item_id r =? item) items_df); reflexivity.
Qed.

Lemma category_line_first (front back : list ItemRow) (item c : Z) :
  ~ In item (map info_item_id front) ->
  category_line (Some (front ++ mkItemRow item c :: back)) item = Category c.
Proof.
  intros Hfront. rewrite category_line_cases, filter_skip_front.
  - simpl. rewrite Z.eqb_refl. reflexivity.
  - intros y Hy. apply Z.eqb_neq. intros E. apply Hfront.
    rewrite <- E. apply in_map, Hy.
Qed.

(** X8: the category line of the result page.
    - [iloc[0]] never raises: it is only reached on a non-empty match.
    - The line shows category [c] exactly when the metadata was loaded
      and its first row for the item has category [c].
    - No line is shown exactly when the metadata is missing or has no
      row for the item; in particular when [load_item_info] caught a
      failure of the read.
    - When the metadata lists every item at most once, the line shows
      the category of the item's row. *)
Theorem category_line_lookup (items_info : option (list ItemRow)) (item : Z) :
  category_line items_info item <> CategoryIndexError /\
  (forall c : Z,
     category_line items_info item = Category c <->
     exists items_df front back : list ItemRow,
       items_info = Some items_df /\
       items_df = front ++ mkItemRow item c :: back /\
       ~ In item (map info_item_id front)) /\
  (category_line items_info item = NoCategory <->
     items_info = None \/
     exists items_df : list ItemRow,
       items_info = Some items_df /\ ~ In item (map info_item_id items_df)) /\
  category_line (load_item_info ReadRaised) item = NoCategory /\
  (forall (items_df : list ItemRow) (c : Z),
     items_info = Some items_df ->
     NoDup (map info_item_id items_df) ->
     In (mkItemRow item c) items_df ->
     category_line items_info item = Category c).
Proof.
  assert (Hfilter : forall items_df,
            filter (fun r => info_item_id r =? item) items_df = [] <->
            ~ In item (map info_item_id items_df)).
  { intros items_df. split.
    - intros E Hin. apply in_map_iff in Hin. destruct Hin as (r & Er & Hr).
      assert (H : In r (filter (fun r => info_item_id r =? item) items_df)).
      { apply filter_In. split; [exact Hr|]. apply Z.eqb_eq, Er. }
      rewrite E in H. exact H.
    - intros Hn.
      destruct (filter (fun r => info_item_id r =? item) items_df) as [|d l] eqn:E;
        [reflexivity|].
      exfalso. apply Hn.
      assert (H : In d (filter (fun r => info_item_id r =? item) items_df))
        by (rewrite E; left; reflexivity).
      apply filter_In in H. destruct H as [Hd Ed]. apply Z.eqb_eq in Ed.
      rewrite <- Ed. apply in_map, Hd. }
  split; [|split; [|split; [|split]]].
  - destruct items_info as [items_df|]; [|discriminate].
    rewrite category_line_cases.
    destruct (filter _ items_df); discriminate.
  - intros c. split.
    + destruct items_info as [items_df|]; [|discriminate].
      rewrite category_line_cases.
      destruct (filter (fun r => info_item_id r =? item) items_df)
        as [|[i' c'] l] eqn:E; [discriminate|].
      intros H. injection H as Hc. simpl in Hc. subst c'.
      assert (Hd : In (mkItemRow i' c)
                      (filter (fun r => info_item_id r =? item) items_df))
        by (rewrite E; left; reflexivity).
      apply filter_In in Hd. destruct Hd as [_ Ei]. simpl in Ei.
      apply Z.eqb_eq in Ei. subst i'.
      destruct (filter_first_match _ _ _ _ E) as (front & back & -> & Hf).
      exists (front ++ mkItemRow item c :: back), front, back.
      split; [reflexivity|]. split; [reflexivity|].
      intros Hin. apply in_map_iff in Hin. destruct Hin as (r & Er & Hr).
      specialize (Hf r Hr). simpl in Hf. apply Z.eqb_neq in Hf. contradiction.
    + intros (items_df & front & back & -> & -> & Hfront).
      apply category_line_first, Hfront.
  - split.
    + destruct items_info as [items_df|]; [|left; reflexivity].
      rewrite category_line_cases. intros H. right. exists items_df.
      split; [reflexivity|]. apply Hfilter.
      destruct (filter _ items_df); [reflexivity|discriminate].
    + intros [->|(items_df & -> & Hn)]; [reflexivity|].
      rewrite category_line_cases.
      rewrite (proj2 (Hfilter items_df) Hn). reflexivity.
  - reflexivity.
  - intros items_df c -> Hnd Hin.
    destruct (in_split _ _ Hin) as (front & back & ->).
    apply category_line_first.
    rewrite map_app in Hnd. simpl in Hnd. intros Hfront.
    apply (NoDup_app_disjoint _ _ item Hnd Hfront). left. reflexivity.
Qed.

(** In [items3] item 1 is listed twice; the first row decides. *)
Lemma category_line_lookup_witness :
  category_line (Some items3) 1 = Category 40 /\
  category_line (Some items3) 2 = Category 55.
Proof.
  split.
  - apply (proj1 (proj2 (category_line_lookup (Some items3) 1)) 40).
    exists items3, [], [mkItemRow 2 55; mkItemRow 1 77].
    split; [reflexivity|]. split; [reflexivity|]. intros [].
  - reflexivity.
Defined.

(** ** Rows and shops *)

Lemma unique_of_NoDup (l : list Z) : NoDup l -> unique l = l.
Proof.
  induction 1 as [|x l Hx Hnd IH]; simpl.
  - reflexivity.
  - rewrite IH. f_equal.
    clear IH Hnd. induction l as [|y l IHl]; simpl.
    + reflexivity.
    + destruct (y =? x) eqn:E.
      * apply Z.eqb_eq in E. subst y. exfalso. apply Hx. left. reflexivity.
      * simpl. f_equal. apply IHl. intros H. apply Hx. right. exact H.
Qed.

Lemma select_item_shops_NoDup (df : DataFrame) (item : Z) :
  NoDup (map (fun r => (item_id r, shop_id r)) df) ->
  NoDup (map shop_id (select_item df item)).
Proof.
  unfold select_item.
  induction df as [|r df IH]; simpl; intros Hnd.
  - constructor.
  - inversion Hnd as [|? ? Hnot Hnd']; subst.
    destruct (item_id r =? item) eqn:E; [|apply IH, Hnd'].
    apply Z.eqb_eq in E. simpl. constructor; [|apply IH, Hnd'].
    intros Hin. apply Hnot.
    apply in_map_iff in Hin. destruct Hin as (r' & Es & Hr').
    apply filter_In in Hr'. destruct Hr' as [Hr' Ei]. apply Z.eqb_eq in Ei.
    apply in_map_iff. exists r'. split; [|exact Hr']. congruence.
Qed.

(** X9: [n_shops] counts rows.  It is never less than the number of
    distinct shops among the rows of the item.  When the table has at
    most one row per (item, shop) pair, [n_shops] is the number of
    distinct shops of the item and no shop is listed twice in
    [top_shops]; with a repeated pair it counts the shop once per row. *)
Theorem n_shops_counts_rows (df : DataFrame) (item : Z) (s : PredictionSummary) :
  predict_sales df item = Some s ->
  (nunique (map shop_id (select_item df item)) <= n_shops s)%nat /\
  (NoDup (map (fun r => (item_id r, shop_id r)) df) ->
   n_shops s = nunique (map shop_id (select_item df item)) /\
   NoDup (map fst (top_shops s))) /\
  (shops_metric table_repeated_shop 1 = 2%nat /\
   nunique (map shop_id (select_item table_repeated_shop 1)) = 1%nat).
Proof.
  intros Hs.
  destruct (predict_sales_cases df item) as [[_ Hn]|[_ Hs']]; [congruence|].
  rewrite Hs' in Hs. injection Hs as <-. simpl.
  split; [|split; [|split; reflexivity]].
  - unfold nunique, len.
    etransitivity; [apply unique_length_le|]. rewrite length_map. reflexivity.
  - intros Hpairs.
    pose proof (select_item_shops_NoDup df item Hpairs) as Hnd.
    split.
    + unfold nunique, len. rewrite (unique_of_NoDup _ Hnd), length_map.
      reflexivity.
    + rewrite map_map. unfold nlargest.
      change (fun x => fst (shop_columns x)) with shop_id.
      rewrite <- firstn_map. apply NoDup_firstn.
      eapply Permutation_NoDup; [|exact Hnd].
      apply Permutation_map, stable_sort_perm.
Qed.

(** [table3] has one row per (item, shop) pair: item 1 has 2 shops. *)
Lemma n_shops_counts_rows_witness :
  exists s : PredictionSummary,
    predict_sales table3 1 = Some s /\
    n_shops s = nunique (map shop_id (select_item table3 1)) /\
    NoDup (map fst (top_shops s)).
Proof.
  assert (Hpairs : NoDup (map (fun r => (item_id r, shop_id r)) table3)).
  { simpl. repeat constructor; simpl; intuition discriminate. }
  destruct (n_shops_counts_rows table3 1 _ eq_refl) as (_ & H & _).
  eexists. split; [reflexivity|]. exact (H Hpairs).
Defined.

(** ** Rounding to two decimals *)

Lemma rint_mono (p q : Q) : (p <= q)%Q -> rint p <= rint q.
Proof.
  intros Hpq. pose proof (Qfloor_resp_le p q Hpq) as Hf.
  unfold rint.
  destruct (Z.eq_dec (Qfloor p) (Qfloor q)) as [E|E].
  - assert (Heq : (inject_Z (Qfloor p) == inject_Z (Qfloor q))%Q)
      by (rewrite E; reflexivity).
    destruct (Qcompare_spec (p - inject_Z (Qfloor p)) (1 # 2)) as [Ep|Lp|Gp];
      destruct (Qcompare_spec (q - inject_Z (Qfloor q)) (1 # 2)) as [Eq|Lq|Gq];
      try (exfalso; lra);
      rewrite ?E; try (destruct (Z.even (Qfloor q))); lia.
  - assert (Hlt : Qfloor p + 1 <= Qfloor q) by lia.
    destruct (Qcompare_spec (p - inject_Z (Qfloor p)) (1 # 2));
      destruct (Qcompare_spec (q - inject_Z (Qfloor q)) (1 # 2));
      try (destruct (Z.even (Qfloor p))); try (destruct (Z.even (Qfloor q)));
      lia.
Qed.

Lemma round2_eq (q : Q) : round2 q = Qmake (rint (q * 100)) 100.
Proof.
  unfold round2, Qdiv, Qmult, Qinv, inject_Z. simpl.
  rewrite Z.mul_1_r. reflexivity.
Qed.

Lemma round2_mono (p q : Q) : (p <= q)%Q -> (round2 p <= round2 q)%Q.
Proof.
  intros Hpq. rewrite !round2_eq. unfold Qle. simpl.
  apply Z.mul_le_mono_nonneg_r; [lia|].
  apply rint_mono. lra.
Qed.

(** Rounded values that are equal as rationals are the same term. *)
Lemma round2_canonical (p q : Q) :
  (round2 p == round2 q)%Q -> round2 p = round2 q.
Proof.
  rewrite !round2_eq. unfold Qeq. simpl. intros H. f_equal. lia.
Qed.

(** ** Sorted columns *)

Lemma StronglySorted_map {A B : Type} (R : B -> B -> Prop) (f : A -> B)
    (l : list A) :
  StronglySorted (fun a b => R (f a) (f b)) l -> StronglySorted R (map f l).
Proof.
  induction 1 as [|x l Hs IH Hx]; simpl; constructor.
  - exact IH.
  - rewrite Forall_map. exact Hx.
Qed.

(** Two descending columns with the same entries, whose equal entries
    are the same terms, are the same column. *)
Lemma descending_unique (l1 l2 : list Q) :
  (forall x y, In x l1 -> In y l1 -> (x == y)%Q -> x = y) ->
  Permutation l1 l2 -> descending l1 -> descending l2 -> l1 = l2.
Proof.
  revert l2. induction l1 as [|a t1 IH]; intros l2 Hcan Hperm H1 H2.
  - apply Permutation_nil in Hperm. symmetry. exact Hperm.
  - destruct l2 as [|b t2].
    { apply Permutation_sym, Permutation_nil in Hperm. discriminate. }
    assert (Hb : In b (a :: t1)).
    { eapply Permutation_in; [apply Permutation_sym, Hperm|left; reflexivity]. }
    assert (Ha : In a (b :: t2)).
    { eapply Permutation_in; [exact Hperm|left; reflexivity]. }
    pose proof (sorted_desc_first (fun q => q) t1 a b H1 Hb) as Hba.
    pose proof (sorted_desc_first (fun q => q) t2 b a H2 Ha) as Hab.
    assert (E : a = b).
    { apply Hcan; [left; reflexivity|exact Hb|].
      apply Qle_antisym; assumption. }
    subst b. f_equal. apply IH.
    + intros x y Hx Hy. apply Hcan; right; assumption.
    + eapply Permutation_cons_inv, Hperm.
    + inversion H1; assumption.
    + inversion H2; assumption.
Qed.

(** ** The displayed tables *)

Lemma combine_columns {A B : Type} (a : list A) (b : list B) :
  length a = length b ->
  map fst (combine a b) = a /\ map snd (combine a b) = b.
Proof.
  revert b. induction a as [|x a IH]; intros [|y b] H; simpl in *;
    try discriminate; [split; reflexivity|].
  injection H as H. destruct (IH b H) as [-> ->]. split; reflexivity.
Qed.

Lemma reindex_from_1_columns {A : Type} (rows : list A) :
  map fst (reindex_from_1 rows) = seq 1 (length rows) /\
  map snd (reindex_from_1 rows) = rows.
Proof.
  unfold reindex_from_1, len. apply combine_columns. apply length_seq.
Qed.

Lemma sales_column_reindex (rows : list (Z * Q)) :
  sales_column (reindex_from_1 rows) = map snd rows.
Proof.
  unfold sales_column.
  rewrite <- (proj2 (reindex_from_1_columns rows)) at 2.
  rewrite map_map. reflexivity.
Qed.

Lemma map_snd_round_sales (rows : list (Z * Q)) :
  map snd (map round_sales rows) = map round2 (map snd rows).
Proof. rewrite !map_map. reflexivity. Qed.

(** Rounding keeps a descending column descending. *)
Lemma round2_descending {A : Type} (key : A -> Q) (l : list A) :
  StronglySorted (ge_key key) l -> descending (map round2 (map key l)).
Proof.
  intros H. unfold descending. rewrite map_map.
  apply StronglySorted_map.
  eapply StronglySorted_weaken; [|exact H].
  intros a b. unfold ge_key. apply round2_mono.
Qed.

Lemma nlargest_sorted (n : nat) (rows : DataFrame) :
  StronglySorted (ge_key item_cnt_month) (nlargest n rows).
Proof.
  unfold nlargest. apply StronglySorted_firstn, stable_sort_desc_sorted.
Qed.

(** X10: the "Top 5 Shops" table of a prediction.  Its index runs from
    1 to [min 5 n_shops]; its rows are the rows of [top_shops], in their
    order, each with its shop and its sales rounded; and after rounding
    the sales column is still in non-increasing order. *)
Theorem top_shops_display_ranked (df : DataFrame) (item : Z)
    (s : PredictionSummary) :
  predict_sales df item = Some s ->
  let table := top_shops_display s in
  map fst table = seq 1 (Nat.min 5 (n_shops s)) /\
  map snd table = map round_sales (top_shops s) /\
  map (fun row => fst (snd row)) table = map fst (top_shops s) /\
  descending (sales_column table).
Proof.
  intros Hs table. subst table.
  destruct (predict_sales_cases df item) as [[_ Hn]|[_ Hs']]; [congruence|].
  rewrite Hs' in Hs. injection Hs as <-.
  unfold top_shops_display. cbn [top_shops n_shops].
  set (rows := select_item df item).
  destruct (reindex_from_1_columns
              (map round_sales (map shop_columns (nlargest 5 rows))))
    as [Hidx Hrows].
  split; [|split; [|split]].
  - rewrite Hidx, !length_map, nlargest_length. reflexivity.
  - exact Hrows.
  - rewrite <- (map_map snd fst), Hrows, !map_map. reflexivity.
  - rewrite sales_column_reindex, map_snd_round_sales, map_snd_shop_columns.
    apply round2_descending, nlargest_sorted.
Qed.

(** [table3], item 1: ranks 1 and 2, sales 5.00 and 3.00. *)
Lemma top_shops_display_ranked_witness :
  exists s : PredictionSummary,
    predict_sales table3 1 = Some s /\
    map fst (top_shops_display s) = [1; 2]%nat /\
    descending (sales_column (top_shops_display s)).
Proof.
  destruct (top_shops_display_ranked table3 1 _ eq_refl) as (Hidx & _ & _ & Hd).
  eexists. split; [reflexivity|]. split; [exact Hidx|exact Hd].
Defined.

(** X11: the "View All Shops" table of a prediction.  It has one row
    per row of the item, indexed from 1 to [n_shops]; its rows are the
    shop columns of those rows with the sales rounded, in non-increasing
    order of the rounded sales; and the sales column of the "Top 5
    Shops" table is the first 5 entries of its sales column. *)
Theorem all_shops_listing (df : DataFrame) (item : Z) (s : PredictionSummary) :
  predict_sales df item = Some s ->
  let listing := all_shops df item in
  map fst listing = seq 1 (n_shops s) /\
  Permutation (map snd listing)
              (map round_sales (map shop_columns (select_item df item))) /\
  descending (sales_column listing) /\
  sales_column (top_shops_display s) = firstn 5 (sales_column listing).
Proof.
  intros Hs listing. subst listing.
  destruct (predict_sales_cases df item) as [[_ Hn]|[_ Hs']]; [congruence|].
  rewrite Hs' in Hs. injection Hs as <-.
  unfold all_shops, top_shops_display. cbn [top_shops n_shops].
  set (rows := select_item df item).
  set (rounded := map round_sales (map shop_columns rows)).
  destruct (reindex_from_1_columns (sort_values_desc rounded)) as [Hidx Hrows].
  assert (Hperm : Permutation (sort_values_desc rounded) rounded).
  { apply Permutation_sym, stable_sort_perm. }
  assert (Hdesc : descending (map snd (sort_values_desc rounded))).
  { apply StronglySorted_map. apply (stable_sort_desc_sorted snd). }
  split; [|split; [|split]].
  - rewrite Hidx. unfold sort_values_desc.
    rewrite stable_sort_length. unfold rounded, len.
    rewrite !length_map. reflexivity.
  - rewrite Hrows. exact Hperm.
  - rewrite sales_column_reindex. exact Hdesc.
  - rewrite !sales_column_reindex, map_snd_round_sales, map_snd_shop_columns.
    unfold nlargest. rewrite <- !firstn_map. f_equal.
    apply descending_unique.
    + intros x y Hx Hy.
      apply in_map_iff in Hx. destruct Hx as (q & <- & _).
      apply in_map_iff in Hy. destruct Hy as (q' & <- & _).
      apply round2_canonical.
    + eapply Permutation_trans.
      * apply Permutation_map, Permutation_map, Permutation_sym, stable_sort_perm.
      * rewrite <- map_snd_shop_columns, <- map_snd_round_sales.
        apply Permutation_map, Permutation_sym, Hperm.
    + apply round2_descending, stable_sort_desc_sorted.
    + exact Hdesc.
Qed.

(** [table3], item 1: two rows, listed 5.00 then 3.00, as in the top
    table. *)
Lemma all_shops_listing_witness :
  exists s : PredictionSummary,
    predict_sales table3 1 = Some s /\
    map fst (all_shops table3 1) = seq 1 (n_shops s) /\
    sales_column (top_shops_display s) =
    firstn 5 (sales_column (all_shops table3 1)).
Proof.
  destruct (all_shops_listing table3 1 _ eq_refl) as (Hidx & _ & _ & Htop).
  eexists. split; [reflexivity|]. split; [exact Hidx|exact Htop].
Defined.

(** ** The labels of the select box *)

Lemma to_int_proper (x : Z) :
  Z.to_int x <> Decimal.Pos Decimal.Nil /\
  Z.to_int x <> Decimal.Neg Decimal.Nil.
Proof.
  destruct x as [|p|p]; simpl; split; try discriminate;
    intros H; injection H as H;
    apply (DecimalPos.Unsigned.to_uint_nonnil p H).
Qed.

Lemma decimal_injective (x y : Z) :
  Labels.decimal x = Labels.decimal y -> x = y.
Proof.
  unfold Labels.decimal. intros H.
  apply (f_equal DecimalString.NilZero.int_of_string) in H.
  destruct (to_int_proper x) as [Hx1 Hx2].
  destruct (to_int_proper y) as [Hy1 Hy2].
  rewrite !DecimalString.NilZero.isi in H by assumption.
  injection H as H. apply (f_equal Z.of_int) in H.
  rewrite !DecimalZ.of_to in H. exact H.
Qed.

(** X12: the labels of the select box tell the options apart: two
    options have the same label only if they are the same number.  In
    particular no item other than 0 is labelled like the sentinel. *)
Theorem format_func_injective (x y : Z) :
  Labels.format_func x = Labels.format_func y <-> x = y.
Proof.
  split; [|intros ->; reflexivity].
  unfold Labels.format_func.
  destruct (x =? 0) eqn:Ex, (y =? 0) eqn:Ey; cbn; intros H.
  - apply Z.eqb_eq in Ex, Ey. congruence.
  - discriminate H.
  - discriminate H.
  - injection H as H. apply decimal_injective, H.
Qed.

Module LabelExamples.
Import String.

Example format_func_sentinel :
  Labels.format_func 0 = "-- Select an Item ID --"%string.
Proof. reflexivity. Qed.

Example format_func_item :
  Labels.format_func 2015 = "Item ID: 2015"%string.
Proof. reflexivity. Qed.

End LabelExamples.

(** ** Top, middle and low sellers *)

(** With 10 items the groups overlap out of order: item 3 is in the low
    group and item 2 in the middle group. *)
Example sample_groups_table10 :
  mid_items table10 = [5; 4; 3; 2] /\ low_items table10 = [3; 2; 1].
Proof. split; vm_compute; reflexivity. Qed.

(** ** [predict_sales] over the numeric interface *)

Section PredictSalesWith.
Context {F : Type}.
Variable np : Numerics F.

Lemma select_item_of_length (df : list (RowOf F)) (item : Z) :
  length (select_item_of df item) = matching_rows_of df item.
Proof.
  unfold select_item_of, matching_rows_of.
  induction df as [|r df IH]; simpl.
  - reflexivity.
  - destruct (Z.eq_dec (item_id_of r) item) as [E|E].
    + apply Z.eqb_eq in E. rewrite E. simpl. now rewrite IH.
    + apply Z.eqb_neq in E. rewrite E. exact IH.
Qed.

Lemma column_of_matching (df : list (RowOf F)) (item : Z) :
  column_of df item = matching_column df item.
Proof.
  unfold column_of, select_item_of.
  induction df as [|r df IH]; simpl.
  - reflexivity.
  - destruct (Z.eq_dec (item_id_of r) item) as [E|E].
    + apply Z.eqb_eq in E. rewrite E. simpl. now rewrite IH.
    + apply Z.eqb_neq in E. rewrite E. exact IH.
Qed.

Lemma predict_sales_with_cases (df : list (RowOf F)) (item : Z) :
  (matching_rows_of df item = 0%nat /\ predict_sales_with np df item = None) \/
  ((0 < matching_rows_of df item)%nat /\
   predict_sales_with np df item =
   Some (mkSummaryOf
           (series_sum_of np (matching_column df item))
           (matching_rows_of df item)
           (true_divide np (series_sum_of np (matching_column df item))
                        (matching_rows_of df item))
           (map shop_columns_of (nlargest_of np 5 (select_item_of df item))))).
Proof.
  unfold predict_sales_with, len.
  change (map item_cnt_month_of (select_item_of df item))
    with (column_of df item).
  rewrite select_item_of_length, column_of_matching.
  destruct (matching_rows_of df item) as [|k] eqn:E; simpl.
  - left. split; reflexivity.
  - right. split; [lia|reflexivity].
Qed.
End PredictSalesWith.

(** C1, amended: for an item that occurs in at least one row of the
    table, [predict_sales] returns a summary; its [n_shops] is the
    number of rows of the table with that item, and its [total_sales]
    is what [Series.sum] returns on the [item_cnt_month] of those rows,
    taken in row order.  That is the exact sum of these quantities
    whenever [Series.sum] is exact on them. *)
Theorem predict_sales_with_found {F : Type} (np : Numerics F) (value : F -> Q)
    (df : list (RowOf F)) (item : Z) :
  In item (map item_id_of df) ->
  exists s : SummaryOf F,
    predict_sales_with np df item = Some s /\
    n_shops_of s = matching_rows_of df item /\
    total_sales_of s = series_sum_of np (matching_column df item) /\
    ((value (series_sum_of np (matching_column df item)) ==
      exact_sum value (matching_column df item))%Q ->
     (value (total_sales_of s) ==
      exact_sum value (matching_column df item))%Q).
Proof.
  intros Hin. apply (count_occ_In Z.eq_dec) in Hin. fold (matching_rows_of df item) in Hin.
  destruct (predict_sales_with_cases np df item) as [[H0 _]|[_ Hs]]; [lia|].
  eexists. split; [exact Hs|]. simpl.
  split; [reflexivity|]. split; [reflexivity|]. trivial.
Qed.

(** The first example of the specification in float64: item 1 has 2
    rows and the total 8.0, which is exact. *)
Lemma predict_sales_with_found_witness :
  exists s : SummaryOf PrimFloat.float,
    F64.predict_sales F64.table3 1 = Some s /\
    n_shops_of s = 2%nat /\
    (F64.value (total_sales_of s) == 8)%Q.
Proof.
  assert (Hin : In 1 (map item_id_of F64.table3)) by (simpl; tauto).
  destruct (predict_sales_with_found F64.numerics F64.value F64.table3 1 Hin)
    as (s & Hs & Hn & _ & Hexact).
  exists s. split; [exact Hs|]. split; [exact Hn|].
  rewrite Hexact; vm_compute; reflexivity.
Defined.

(** C1, as the specification states it, fails in float64.  Item 1 with
    the quantities 1e16, 1.0 and 1.0 has the exact sum 1e16 + 2, and
    [total_sales] is 1e16: each addition of 1.0 is rounded away. *)
Lemma total_sales_not_exact :
  exists s : SummaryOf PrimFloat.float,
    F64.predict_sales F64.table_large 1 = Some s /\
    n_shops_of s = 3%nat /\
    (F64.value (total_sales_of s) == 10000000000000000 # 1)%Q /\
    (exact_sum F64.value (matching_column F64.table_large 1) ==
     10000000000000002 # 1)%Q /\
    ~ (F64.value (total_sales_of s) ==
       exact_sum F64.value (matching_column F64.table_large 1))%Q.
Proof.
  eexists. split; [vm_compute; reflexivity|].
  split; [reflexivity|]. split; [vm_compute; reflexivity|].
  split; [vm_compute; reflexivity|].
  vm_compute. discriminate.
Qed.

(** ** The average against the total *)

Lemma Qabs_scale (x n : Q) : (0 < n)%Q -> (Qabs (x / n) * n == Qabs x)%Q.
Proof.
  intros Hn.
  assert (Hne : ~ (n == 0)%Q) by (intros E; rewrite E in Hn; discriminate Hn).
  rewrite <- (Qabs_pos n) at 2 by (apply Qlt_le_weak, Hn).
  rewrite <- Qabs_Qmult. apply Qabs_wd. field. exact Hne.
Qed.

(** If the quotient [a] of [t] by [n] has relative error at most the
    unit roundoff, then [a * n] is that close to [t], and a product
    rounded with the same accuracy is within the tolerance of [t]. *)
Lemma quotient_times_count (t a n : Q) :
  (0 < n)%Q ->
  (Qabs (a - t / n) <= unit_roundoff * Qabs (t / n))%Q ->
  (Qabs (a * n - t) <= unit_roundoff * Qabs t)%Q /\
  forall product : Q,
    (Qabs (product - a * n) <= unit_roundoff * Qabs (a * n))%Q ->
    (Qabs (product - t) <= tolerance * Qabs t)%Q.
Proof.
  intros Hn Hdiv.
  assert (Hne : ~ (n == 0)%Q) by (intros E; rewrite E in Hn; discriminate Hn).
  assert (Hclose : (Qabs (a * n - t) <= unit_roundoff * Qabs t)%Q).
  { assert (E : (a * n - t == (a - t / n) * n)%Q) by (field; exact Hne).
    rewrite E, Qabs_Qmult, (Qabs_pos n) by (apply Qlt_le_weak, Hn).
    rewrite <- (Qabs_scale t n Hn), Qmult_assoc.
    apply Qmult_le_compat_r; [exact Hdiv|apply Qlt_le_weak, Hn]. }
  split; [exact Hclose|].
  intros product Hprod.
  pose proof (Qabs_nonneg t) as HT.
  assert (HX : (Qabs (a * n) <= Qabs (a * n - t) + Qabs t)%Q).
  { assert (E : (a * n == (a * n - t) + t)%Q) by ring.
    rewrite E at 1. apply Qabs_triangle. }
  apply Qabs_Qle_condition in Hclose. apply Qabs_Qle_condition in Hprod.
  apply Qabs_Qle_condition.
  assert (HX' : (Qabs (a * n) <= (1 + unit_roundoff) * Qabs t)%Q).
  { pose proof (proj2 (Qabs_Qle_condition (a * n - t) (unit_roundoff * Qabs t))
                      Hclose) as H.
    unfold unit_roundoff in *. lra. }
  unfold unit_roundoff, tolerance in *.
  destruct Hclose as [Hc1 Hc2]. destruct Hprod as [Hp1 Hp2].
  split; lra.
Qed.

(** C9, amended: in every summary that [predict_sales] returns,
    [n_shops] is positive and [avg_per_shop] is the quotient that the
    division returns for [total_sales] and [n_shops].  Read as exact
    numbers:
    - when the division is exact, [avg_per_shop * n_shops] equals
      [total_sales];
    - when the division has relative error at most 2^-53, as float64
      division has unless it underflows or overflows,
      [avg_per_shop * n_shops] differs from [total_sales] by at most
      2^-53 * |total_sales|, and a product that is itself rounded with
      relative error at most 2^-53 differs from [total_sales] by at most
      1e-6 * |total_sales|. *)
Theorem avg_times_count_with {F : Type} (np : Numerics F) (value : F -> Q)
    (df : list (RowOf F)) (item : Z) (s : SummaryOf F) :
  predict_sales_with np df item = Some s ->
  let t := value (total_sales_of s) in
  let a := value (avg_per_shop_of s) in
  let n := inject_Z (Z.of_nat (n_shops_of s)) in
  (0 < n_shops_of s)%nat /\
  avg_per_shop_of s = true_divide np (total_sales_of s) (n_shops_of s) /\
  ((a == t / n)%Q -> (a * n == t)%Q) /\
  ((Qabs (a - t / n) <= unit_roundoff * Qabs (t / n))%Q ->
   (Qabs (a * n - t) <= unit_roundoff * Qabs t)%Q /\
   forall product : Q,
     (Qabs (product - a * n) <= unit_roundoff * Qabs (a * n))%Q ->
     (Qabs (product - t) <= tolerance * Qabs t)%Q).
Proof.
  intros Hs t a n.
  destruct (predict_sales_with_cases np df item) as [[_ Hn]|[Hpos Hs']];
    [congruence|].
  rewrite Hs' in Hs. injection Hs as <-. subst t a n. cbn [n_shops_of
    total_sales_of avg_per_shop_of].
  assert (Hn : (0 < inject_Z (Z.of_nat (matching_rows_of df item)))%Q).
  { change 0%Q with (inject_Z 0). rewrite <- Zlt_Qlt. lia. }
  assert (Hne : ~ (inject_Z (Z.of_nat (matching_rows_of df item)) == 0)%Q).
  { intros E. rewrite E in Hn. discriminate Hn. }
  split; [exact Hpos|]. split; [reflexivity|]. split.
  - intros E. rewrite E. field. exact Hne.
  - apply quotient_times_count, Hn.
Qed.

(** Item 1 with total 1.0 over 49 rows in float64: the division
    rounds, within 2^-53, and so does the float64 product; the product
    0.99999999999999989 is within the tolerance of the total. *)
Lemma avg_times_count_with_witness :
  exists s : SummaryOf PrimFloat.float,
    F64.predict_sales F64.table49 1 = Some s /\
    n_shops_of s = 49%nat /\
    (Qabs (F64.value (F64.multiply (avg_per_shop_of s) 49) -
           F64.value (total_sales_of s))
     <= tolerance * Qabs (F64.value (total_sales_of s)))%Q.
Proof.
  eexists. split; [vm_compute; reflexivity|]. split; [reflexivity|].
  refine (proj2 (proj2 (proj2 (proj2
    (avg_times_count_with F64.numerics F64.value F64.table49 1 _ eq_refl))) _)
    _ _).
  - vm_compute. discriminate.
  - vm_compute. discriminate.
Defined.

(** C9, as the specification states it, fails in float64.
    - Exact equality: item 1 with total 1.0 over 49 rows has the average
      0.020408163265306121; times 49 this is not 1.0, neither as an
      exact product nor as the float64 product 0.99999999999999989.
    - The tolerance: item 1 with the smallest positive float64 as its
      total over 3 rows has the average 0.0; the product is 0.0, off by
      the whole total. *)
Lemma avg_times_count_fails :
  (exists s : SummaryOf PrimFloat.float,
     F64.predict_sales F64.table49 1 = Some s /\
     n_shops_of s = 49%nat /\
     (F64.value (total_sales_of s) == 1)%Q /\
     ~ (F64.value (avg_per_shop_of s) * 49 == F64.value (total_sales_of s))%Q /\
     ~ (F64.value (F64.multiply (avg_per_shop_of s) 49) ==
        F64.value (total_sales_of s))%Q) /\
  (exists s : SummaryOf PrimFloat.float,
     F64.predict_sales F64.table_tiny 1 = Some s /\
     n_shops_of s = 3%nat /\
     (0 < F64.value (total_sales_of s))%Q /\
     (F64.value (avg_per_shop_of s) == 0)%Q /\
     ~ (Qabs (F64.value (avg_per_shop_of s) * 3 - F64.value (total_sales_of s))
        <= tolerance * Qabs (F64.value (total_sales_of s)))%Q).
Proof.
  split.
  - eexists. split; [vm_compute; reflexivity|]. split; [reflexivity|].
    split; [vm_compute; reflexivity|].
    split; vm_compute; discriminate.
  - eexists. split; [vm_compute; reflexivity|]. split; [reflexivity|].
    split; [vm_compute; reflexivity|]. split; [vm_compute; reflexivity|].
    vm_compute. intros H. apply H. reflexivity.
Qed.

(** ** [get_sample_items] over the numeric interface *)

Section GetSampleItemsWith.
Context {F : Type}.
Variable group_sum : list F -> F.

Lemma groupby_with_keys (df : list (RowOf F)) :
  map fst (groupby_with group_sum df) = sorted (unique (map item_id_of df)).
Proof.
  unfold groupby_with. rewrite map_map. simpl. apply map_id.
Qed.

Lemma groupby_with_spec (df : list (RowOf F)) :
  NoDup (map fst (groupby_with group_sum df)) /\
  (forall i, In i (map fst (groupby_with group_sum df)) <->
             In i (map item_id_of df)) /\
  (forall i t, In (i, t) (groupby_with group_sum df) ->
               t = group_sum (matching_column df i)) /\
  length (groupby_with group_sum df) = nunique (map item_id_of df).
Proof.
  split; [|split; [|split]].
  - rewrite groupby_with_keys. unfold sorted.
    eapply Permutation_NoDup; [apply stable_sort_perm|apply unique_NoDup].
  - intros i. rewrite groupby_with_keys. unfold sorted.
    rewrite stable_sort_In. apply unique_In.
  - intros i t Hin. unfold groupby_with in Hin.
    apply in_map_iff in Hin. destruct Hin as (k & E & _).
    injection E as <- <-. rewrite column_of_matching. reflexivity.
  - rewrite <- (length_map fst), groupby_with_keys. unfold sorted, nunique, len.
    apply stable_sort_length.
Qed.
End GetSampleItemsWith.

(** In a list sorted by a relation that holds of each entry with itself,
    an entry among the first [a] stands in the relation to every entry
    from index [b] on, when [a <= b + 1]. *)
Lemma sorted_slices_related {A : Type} (R : A -> A -> Prop) (a b : nat)
    (l : list A) (x y : A) :
  StronglySorted R l -> (forall e, In e l -> R e e) -> (a <= S b)%nat ->
  In x (firstn a l) -> In y (skipn b l) -> R x y.
Proof.
  intros Hs Hrefl Hab Hx Hy.
  assert (Hx' : In x (firstn (S b) l)).
  { replace a with (Nat.min a (S b)) in Hx by lia.
    rewrite <- firstn_firstn in Hx. apply In_firstn_In in Hx. exact Hx. }
  clear Hx Hab a. revert l Hs Hrefl Hx' Hy.
  induction b as [|b IH]; intros [|t l] Hs Hrefl Hx Hy; try contradiction.
  - simpl in Hx. destruct Hx as [<-|[]].
    inversion Hs as [|? ? _ Ht]; subst. rewrite Forall_forall in Ht.
    destruct Hy as [<-|Hy]; [apply Hrefl; left; reflexivity|apply Ht, Hy].
  - inversion Hs as [|? ? Hs' Ht]; subst. rewrite Forall_forall in Ht.
    cbn [firstn] in Hx. cbn [skipn] in Hy. destruct Hx as [<-|Hx].
    + apply Ht. apply In_skipn_In in Hy. exact Hy.
    + apply (IH l Hs'); [|exact Hx|exact Hy].
      intros e He. apply Hrefl. right. exact He.
Qed.

(** C5: [get_sample_items] is a function of the table and of what the
    group sum and the descending sort of pandas return on it.  Whenever
    the sort returns the grouped totals rearranged and in descending
    order, the result is the top group, then the middle group, then the
    bottom group, where
    - the sorted sequence has one entry per distinct item of the table,
      paired with the group sum of the item's quantities in row order;
    - the top group is its first 3 items: none of the others has a
      larger total;
    - the middle group is its entries at the indices [count / 2], ...,
      [count / 2 + 3], as far as they exist;
    - the bottom group is its last 3 items: none of the others has a
      smaller total;
    - the groups have [min 3 count], [min 4 (count - count / 2)] and
      [min 3 count] items. *)
Theorem get_sample_items_with_groups {F : Type} (leb : F -> F -> bool)
    (group_sum : list F -> F) (sort_values : list (Z * F) -> list (Z * F))
    (df : list (RowOf F)) (n : Z) :
  let grouped := groupby_with group_sum df in
  let item_totals := sort_values grouped in
  let ids := map fst item_totals in
  let count := length item_totals in
  Permutation item_totals grouped ->
  StronglySorted (fun a b => leb (snd b) (snd a) = true) item_totals ->
  get_sample_items_with group_sum sort_values df n =
    firstn 3 ids ++ firstn 4 (skipn (count / 2) ids) ++ skipn (count - 3) ids /\
  NoDup ids /\
  count = nunique (map item_id_of df) /\
  (forall i, In i ids <-> In i (map item_id_of df)) /\
  (forall i t, In (i, t) item_totals -> t = group_sum (matching_column df i)) /\
  (forall a b, In a (firstn 3 item_totals) -> In b (skipn 3 item_totals) ->
               leb (snd b) (snd a) = true) /\
  (forall j : nat,
      nth_error (firstn 4 (skipn (count / 2) ids)) j =
      if (j <? 4)%nat then nth_error ids (count / 2 + j) else None) /\
  (forall a b, In a (firstn (count - 3) item_totals) ->
               In b (skipn (count - 3) item_totals) ->
               leb (snd b) (snd a) = true) /\
  length (firstn 3 ids) = Nat.min 3 count /\
  length (firstn 4 (skipn (count / 2) ids)) = Nat.min 4 (count - count / 2) /\
  length (skipn (count - 3) ids) = Nat.min 3 count.
Proof.
  intros grouped item_totals ids count Hperm Hsorted.
  destruct (groupby_with_spec group_sum df) as (Hnd & Hk & Ht & Hlen).
  fold grouped in Hnd, Hk, Ht, Hlen.
  assert (Hids : Permutation ids (map fst grouped)) by (apply Permutation_map, Hperm).
  assert (Hcount : length ids = count) by (unfold ids; apply length_map).
  split; [|split; [|split; [|split; [|split; [|split; [|split; [|split;
    [|split; [|split]]]]]]]]].
  - unfold get_sample_items_with, head, iloc, tail, len.
    fold grouped. fold item_totals. fold count.
    replace (count / 2 + 4 - count / 2)%nat with 4%nat by lia.
    unfold ids. rewrite !firstn_map, !skipn_map, firstn_map. reflexivity.
  - eapply Permutation_NoDup; [apply Permutation_sym, Hids|exact Hnd].
  - unfold count. rewrite (Permutation_length Hperm). exact Hlen.
  - intros i. rewrite <- Hk. split; intros H.
    + eapply Permutation_in; [exact Hids|exact H].
    + eapply Permutation_in; [apply Permutation_sym, Hids|exact H].
  - intros i t Hin. apply Ht.
    eapply Permutation_in; [exact Hperm|exact Hin].
  - intros a b Ha Hb. rewrite <- (firstn_skipn 3 item_totals) in Hsorted.
    apply StronglySorted_app_inv in Hsorted.
    destruct Hsorted as (_ & _ & Hc). apply (Hc a b Ha Hb).
  - intros j. rewrite nth_error_firstn, nth_error_skipn. reflexivity.
  - intros a b Ha Hb.
    rewrite <- (firstn_skipn (count - 3) item_totals) in Hsorted.
    apply StronglySorted_app_inv in Hsorted.
    destruct Hsorted as (_ & _ & Hc). apply (Hc a b Ha Hb).
  - rewrite length_firstn, Hcount. reflexivity.
  - rewrite length_firstn, length_skipn, Hcount. reflexivity.
  - rewrite length_skipn, Hcount. lia.
Qed.

(** Items 1..20 with the totals 1..20, exact sums and a stable sort:
    the sample is 20, 19, 18, then 10, 9, 8, 7, then 3, 2, 1. *)
Lemma get_sample_items_with_groups_witness :
  get_sample_items_with series_sum sort_values_desc ranked20 10 =
  [20; 19; 18; 10; 9; 8; 7; 3; 2; 1] /\
  NoDup (map fst (sort_values_desc (groupby_with series_sum ranked20))).
Proof.
  assert (Hperm : Permutation
            (sort_values_desc (groupby_with series_sum ranked20))
            (groupby_with series_sum ranked20)).
  { apply Permutation_sym, stable_sort_perm. }
  assert (Hsorted : StronglySorted
            (fun a b : Z * Q => Qle_bool (snd b) (snd a) = true)
            (sort_values_desc (groupby_with series_sum ranked20))).
  { apply (stable_sort_sorted (desc_by snd));
      [apply desc_by_total|apply desc_by_trans]. }
  destruct (get_sample_items_with_groups Qle_bool series_sum sort_values_desc
              ranked20 10 Hperm Hsorted) as (Heq & Hnd & _).
  split; [|exact Hnd].
  rewrite Heq. vm_compute. reflexivity.
Defined.

(** X13: "top sellers, medium, and low".  When the table has at least
    11 distinct items and no total is missing (each compares with
    itself), the three groups of the sample are ordered by the totals
    they were ranked by: every item of the middle group has a total at
    most that of every item of the top group and at least that of every
    item of the low group. *)
Theorem sample_groups_ordered_with {F : Type} (leb : F -> F -> bool)
    (group_sum : list F -> F) (sort_values : list (Z * F) -> list (Z * F))
    (df : list (RowOf F)) (n : Z) :
  let item_totals := sort_values (groupby_with group_sum df) in
  let count := length item_totals in
  let top_rows := head 3 item_totals in
  let mid_rows := iloc (count / 2) (count / 2 + 4) item_totals in
  let low_rows := tail 3 item_totals in
  Permutation item_totals (groupby_with group_sum df) ->
  StronglySorted (fun a b => leb (snd b) (snd a) = true) item_totals ->
  (forall e, In e item_totals -> leb (snd e) (snd e) = true) ->
  (11 <= nunique (map item_id_of df))%nat ->
  get_sample_items_with group_sum sort_values df n =
    map fst top_rows ++ map fst mid_rows ++ map fst low_rows /\
  forall top mid low : Z * F,
    In top top_rows -> In mid mid_rows -> In low low_rows ->
    leb (snd mid) (snd top) = true /\ leb (snd low) (snd mid) = true.
Proof.
  intros item_totals count top_rows mid_rows low_rows Hperm Hsorted Hrefl H11.
  split; [reflexivity|].
  destruct (groupby_with_spec group_sum df) as (_ & _ & _ & Hlen).
  assert (Hc : count = nunique (map item_id_of df)).
  { unfold count. rewrite (Permutation_length Hperm). exact Hlen. }
  pose proof (Nat.div_mod_eq count 2) as Hdiv.
  pose proof (Nat.mod_upper_bound count 2) as Hmod.
  intros top mid low Htop Hmid Hlow.
  unfold top_rows, head in Htop. unfold low_rows, tail in Hlow.
  fold count in Hlow. unfold mid_rows, iloc in Hmid.
  replace (count / 2 + 4 - count / 2)%nat with 4%nat in Hmid by lia.
  assert (Hmid' : In mid (firstn (count / 2 + 4) item_totals)).
  { rewrite firstn_skipn_comm in Hmid. apply In_skipn_In in Hmid. exact Hmid. }
  apply In_firstn_In in Hmid.
  split.
  - apply (sorted_slices_related
             (fun a b : Z * F => leb (snd b) (snd a) = true)
             3 (count / 2) item_totals top mid);
      [exact Hsorted|exact Hrefl|lia|exact Htop|exact Hmid].
  - apply (sorted_slices_related
             (fun a b : Z * F => leb (snd b) (snd a) = true)
             (count / 2 + 4) (count - 3) item_totals mid low);
      [exact Hsorted|exact Hrefl|lia|exact Hmid'|exact Hlow].
Qed.

(** Items 1..20 with the totals 1..20: item 10 (middle) ranks below
    item 20 (top) and above item 3 (low). *)
Lemma sample_groups_ordered_with_witness :
  Qle_bool 10 20 = true /\ Qle_bool 3 10 = true.
Proof.
  assert (Hperm : Permutation
            (sort_values_desc (groupby_with series_sum ranked20))
            (groupby_with series_sum ranked20)).
  { apply Permutation_sym, stable_sort_perm. }
  assert (Hsorted : StronglySorted
            (fun a b : Z * Q => Qle_bool (snd b) (snd a) = true)
            (sort_values_desc (groupby_with series_sum ranked20))).
  { apply (stable_sort_sorted (desc_by snd));
      [apply desc_by_total|apply desc_by_trans]. }
  assert (Hrefl : forall e : Z * Q,
            In e (sort_values_desc (groupby_with series_sum ranked20)) ->
            Qle_bool (snd e) (snd e) = true).
  { intros e _. apply Qle_bool_iff, Qle_refl. }
  assert (H11 : (11 <= nunique (map item_id_of ranked20))%nat)
    by (vm_compute; repeat constructor).
  destruct (sample_groups_ordered_with Qle_bool series_sum sort_values_desc
              ranked20 10 Hperm Hsorted Hrefl H11) as (_ & Horder).
  apply (Horder (20, 20%Q) (10, 10%Q) (3, 3%Q)); vm_compute; tauto.
Defined.

(** ** The float64 sum does not depend on its fuel *)

(** The halving of [F64.pairwise_sum] ends before the fuel does: any two
    amounts of fuel that are at least the length of the column give the
    same sum. *)
Lemma pairwise_sum_fuel (fuel1 fuel2 : nat) (a : list PrimFloat.float) :
  (length a <= fuel1)%nat -> (length a <= fuel2)%nat ->
  F64.pairwise_sum fuel1 a = F64.pairwise_sum fuel2 a.
Proof.
  revert fuel2 a. induction fuel1 as [|fuel1 IH]; intros fuel2 a H1 H2.
  - destruct a; [|simpl in H1; lia].
    destruct fuel2; reflexivity.
  - destruct fuel2 as [|fuel2].
    + destruct a; [reflexivity|simpl in H2; lia].
    + cbn [F64.pairwise_sum].
      destruct (length a <=? 128)%nat eqn:E; [reflexivity|].
      apply Nat.leb_gt in E.
      pose proof (Nat.div_mod_eq (length a) 2) as Hd.
      pose proof (Nat.mod_upper_bound (length a) 2) as Hm.
      pose proof (Nat.mod_upper_bound (length a / 2) 8) as Hm8.
      assert (Hcut : (0 < length a / 2 - (length a / 2) mod 8 < length a)%nat)
        by lia.
      f_equal.
      * apply IH; rewrite length_firstn; lia.
      * apply IH; rewrite length_skipn; lia.
Qed.
